(** * New-Auto-Scan: the snapshot store and the scan cycle

    A shallow embedding of [data_manager.py] (class [DataManager]), of
    [stock_scanner.py] (class [StockScanner]) and of what the page of
    [app.py] computes from the store, and the properties of the store, the
    history log, the filters, the statistics, the scan cycle, the start and
    stop of the scanner and the page.

    Modelling choices, all of them visible in the definitions below:

    - a [datetime] is the count of its microseconds on the time line, a [Z];
      [timedelta(minutes=m)] is [m * 60_000_000].  The upper end of Python's
      [datetime] range (year 9999) is left out of the model, so adding a
      [timedelta] never fails here;
    - the numbers of a quote ([price], [change_percent]) are rationals [Q]:
      every finite float is one, and the comparisons of the source are the
      comparisons of [Q].  NaN is not a value of the model;
    - a pandas [DataFrame] is the list of its rows, each with its index
      label; [pd.DataFrame(list)] labels the rows 0, 1, 2, ...;
    - each method body that runs under [self.data_lock] is one function on
      the state: the interleaving of threads is not part of the model;
    - the wall clock, the random generator and the standard output are the
      environment [Env] of the scan cycle; the clock and the generator are
      oracles indexed by the number of calls made so far. *)

From Stdlib Require Import ZArith QArith Qround Lia Lqa.
From stdpp Require Import base tactics option list strings pretty.

Local Close Scope Q_scope.
Local Open Scope Z_scope.

(** ** Python values shared by the two classes *)

(** [datetime]: microseconds on the time line. *)
Abbreviation datetime := Z (only parsing).

(** [timedelta(minutes=m)] *)
Definition timedelta_minutes (m : Z) : Z := m * 60000000.

(** One dict of the list that [_fetch_stock_data] returns, which is also one
    row of the frame that [store_scan_data] builds from it. *)
Record Quote := mkQuote {
  symbol : string;
  name : string;
  price : Q;
  change_percent : Q;
  volume : Z;
  market_cap : string;
  sector : string;
  scan_time : string
}.

(** The dict that [_perform_scan] hands to [add_scan_history]. *)
Record ScanInfo := mkScanInfo {
  info_scan_time : string;
  total_stocks : nat;
  gainers : nat;
  losers : nat;
  status : string
}.

(** Comparisons of floats, decided on the rationals. *)
#[global] Instance Qle_dec : RelDecision Qle :=
  fun x y => decide (Qnum x * QDen y <= Qnum y * QDen x).
#[global] Instance Qlt_dec : RelDecision Qlt :=
  fun x y => decide (Qnum x * QDen y < Qnum y * QDen x).

(** [l[start:]], Python's slice with an open end: a negative [start] counts
    from the end of the list and is clipped at its beginning. *)
Definition slice_from {A} (start : Z) (l : list A) : list A :=
  let len := Z.of_nat (length l) in
  let start' := if decide (start < 0) then Z.max (start + len) 0 else start in
  drop (Z.to_nat start') l.

(** ** pandas, as far as the store uses it *)

Module pd.

(** A frame: the rows with their index labels, in order. *)
Abbreviation DataFrame := (list (nat * Quote)) (only parsing).

(** A column of numbers with the index labels of its rows. *)
Abbreviation Series := (list (nat * Q)) (only parsing).

(** [pd.DataFrame(stock_data)]: a RangeIndex 0, 1, 2, ... *)
Definition DataFrame_of (stock_data : list Quote) : DataFrame :=
  imap (fun i r => (i, r)) stock_data.

(** The rows of a frame, without their labels. *)
Definition rows (df : DataFrame) : list Quote := snd <$> df.

(** [df.empty] *)
Definition empty (df : DataFrame) : bool :=
  match df with [] => true | _ => false end.

(** [df[col]] for a numeric column. *)
Definition column (col : Quote -> Q) (df : DataFrame) : Series :=
  (fun ir => (ir.1, col ir.2)) <$> df.

(** [df[mask]] where the mask is a predicate of the row. *)
Definition mask (P : Quote -> Prop) `{!forall r, Decision (P r)}
    (df : DataFrame) : DataFrame :=
  filter (fun ir => P ir.2) df.

(** [s.idxmax()] and [s.idxmin()] are one scan of the column: it keeps
    the best entry so far and replaces it only by one that beats it, so
    of equal values the first one stays.  [beats v b] says that the value
    [v] beats the best so far [b]. *)
Section First_best.

Variable beats : Q -> Q -> Prop.
Context `{!RelDecision beats}.

Fixpoint first_best_from (best : nat * Q) (s : Series) : nat :=
  match s with
  | [] => best.1
  | iv :: s' =>
      if decide (beats iv.2 best.2)
      then first_best_from iv s'
      else first_best_from best s'
  end.

(** On an empty column pandas raises: [None]. *)
Definition first_best (s : Series) : option nat :=
  match s with
  | [] => None
  | iv :: s' => Some (first_best_from iv s')
  end.

End First_best.

Definition larger (v b : Q) : Prop := (b < v)%Q.
Definition smaller (v b : Q) : Prop := (v < b)%Q.

#[global] Instance larger_dec : RelDecision larger :=
  fun v b => decide (b < v)%Q.
#[global] Instance smaller_dec : RelDecision smaller :=
  fun v b => decide (v < b)%Q.

(** [s.idxmax()]: the label of the first occurrence of the maximum. *)
Definition idxmax (s : Series) : option nat := first_best larger s.

(** [s.idxmin()]: the label of the first occurrence of the minimum. *)
Definition idxmin (s : Series) : option nat := first_best smaller s.

(** [df.loc[label]]: the row that carries the label; a missing label is a
    KeyError: [None]. *)
Fixpoint loc (df : DataFrame) (label : nat) : option Quote :=
  match df with
  | [] => None
  | ir :: df' => if decide (ir.1 = label) then Some ir.2 else loc df' label
  end.

(** [df['volume'].mean()], the exact quotient. *)
Definition sum_volume (df : DataFrame) : Z :=
  foldr (fun ir acc => volume ir.2 + acc) 0 df.

Definition mean_volume (df : DataFrame) : Q :=
  Qdiv (inject_Z (sum_volume df)) (inject_Z (Z.of_nat (length df))).

End pd.

(** ** data_manager.py *)

Module DataManager.

(** The attributes of a [DataManager]; [data_lock] is the mutual exclusion
    that makes each function below one step. *)
Record t := mk {
  current_scan_data : option pd.DataFrame;
  scan_history : list ScanInfo;
  last_scan_time : option datetime;
  next_scan_time : option datetime;
  max_history_items : Z
}.

(** [__init__] *)
Definition init : t :=
  {| current_scan_data := None;
     scan_history := [];
     last_scan_time := None;
     next_scan_time := None;
     max_history_items := 100 |}.

Definition store_scan_data (stock_data : list Quote) (scan_time : datetime)
    (self : t) : t :=
  {| current_scan_data := Some (pd.DataFrame_of stock_data);
     scan_history := scan_history self;
     last_scan_time := Some scan_time;
     next_scan_time := Some (scan_time + timedelta_minutes 15);
     max_history_items := max_history_items self |}.

Definition get_latest_scan_data (self : t) : option pd.DataFrame :=
  match current_scan_data self with
  | Some df => Some df
  | None => None
  end.

Definition get_last_scan_time (self : t) : option datetime :=
  last_scan_time self.

Definition get_next_scan_time (self : t) : option datetime :=
  next_scan_time self.

Definition add_scan_history (scan_info : ScanInfo) (self : t) : t :=
  let appended := scan_history self ++ [scan_info] in
  {| current_scan_data := current_scan_data self;
     scan_history :=
       if decide (max_history_items self < Z.of_nat (length appended))
       then slice_from (- max_history_items self) appended
       else appended;
     last_scan_time := last_scan_time self;
     next_scan_time := next_scan_time self;
     max_history_items := max_history_items self |}.

Definition get_scan_history (self : t) : list ScanInfo :=
  scan_history self.

(** The three filters of [get_filtered_data], as predicates of a row. *)
Definition market_cap_is (f : string) (r : Quote) : Prop := market_cap r = f.
Definition sector_is (f : string) (r : Quote) : Prop := sector r = f.
Definition price_in (price_range : Q * Q) (r : Quote) : Prop :=
  (price_range.1 <= price r)%Q /\ (price r <= price_range.2)%Q.

#[global] Instance market_cap_is_dec f r : Decision (market_cap_is f r) :=
  decide (market_cap r = f).
#[global] Instance sector_is_dec f r : Decision (sector_is f r) :=
  decide (sector r = f).
#[global] Instance price_in_dec pr r : Decision (price_in pr r) :=
  decide ((pr.1 <= price r)%Q /\ (price r <= pr.2)%Q).

Definition get_filtered_data (market_cap_filter sector_filter : string)
    (price_range : Q * Q) (self : t) : option pd.DataFrame :=
  match get_latest_scan_data self with
  | None => None
  | Some data =>
      if pd.empty data then None
      else
        let filtered_data := data in
        let filtered_data :=
          if decide (market_cap_filter <> "All")
          then pd.mask (market_cap_is market_cap_filter) filtered_data
          else filtered_data in
        let filtered_data :=
          if decide (sector_filter <> "All")
          then pd.mask (sector_is sector_filter) filtered_data
          else filtered_data in
        let filtered_data := pd.mask (price_in price_range) filtered_data in
        Some filtered_data
  end.

(** The defaults of the keyword arguments of [get_filtered_data]. *)
Definition default_price_range : Q * Q := (0, inject_Z 10000)%Q.

(** The dict that [get_statistics] returns. *)
Record Statistics := mkStatistics {
  stat_total_stocks : nat;
  stat_gainers : nat;
  stat_losers : nat;
  avg_volume : Q;
  top_gainer : option Quote;
  top_loser : option Quote
}.

Definition is_gainer (r : Quote) : Prop := (0 < change_percent r)%Q.
Definition is_loser (r : Quote) : Prop := (change_percent r < 0)%Q.

#[global] Instance is_gainer_dec r : Decision (is_gainer r) :=
  decide (0 < change_percent r)%Q.
#[global] Instance is_loser_dec r : Decision (is_loser r) :=
  decide (change_percent r < 0)%Q.

Definition no_statistics : Statistics :=
  {| stat_total_stocks := 0;
     stat_gainers := 0;
     stat_losers := 0;
     avg_volume := 0%Q;
     top_gainer := None;
     top_loser := None |}.

Definition get_statistics (self : t) : Statistics :=
  match get_latest_scan_data self with
  | None => no_statistics
  | Some data =>
      if pd.empty data then no_statistics
      else
        {| stat_total_stocks := length data;
           stat_gainers := length (pd.mask is_gainer data);
           stat_losers := length (pd.mask is_loser data);
           avg_volume := pd.mean_volume data;
           top_gainer :=
             if decide (0 < length data)%nat
             then pd.idxmax (pd.column change_percent data) ≫= pd.loc data
             else None;
           top_loser :=
             if decide (0 < length data)%nat
             then pd.idxmin (pd.column change_percent data) ≫= pd.loc data
             else None |}
  end.

Definition clear_data (self : t) : t :=
  {| current_scan_data := None;
     scan_history := [];
     last_scan_time := None;
     next_scan_time := None;
     max_history_items := max_history_items self |}.

End DataManager.

(** ** The effects of the scan cycle: state and exceptions *)

(** An exception that [except Exception] catches, with [str(e)]. *)
Record Exception := mkException { str : string }.

(** What running a piece of code on a state of type [S] gives: it returns a
    value or raises, and leaves a state either way. *)
Inductive Result (S A : Type) : Type :=
  | Returned (a : A) (s : S)
  | Raised (e : Exception) (s : S).
Arguments Returned {S A} a s.
Arguments Raised {S A} e s.

Definition Eff (S A : Type) : Type := S -> Result S A.

#[global] Instance Eff_ret {S} : MRet (Eff S) := fun A a s => Returned a s.

#[global] Instance Eff_bind {S} : MBind (Eff S) := fun A B k m s =>
  match m s with
  | Returned a s' => k a s'
  | Raised e s' => Raised e s'
  end.

(** [raise e] *)
Definition raise {S A} (e : Exception) : Eff S A := fun s => Raised e s.

(** [try: body  except Exception as e: handler(e)] *)
Definition try_except {S A} (body : Eff S A) (handler : Exception -> Eff S A)
    : Eff S A := fun s =>
  match body s with
  | Returned a s' => Returned a s'
  | Raised e s' => handler e s'
  end.

(** The state after a run, however it ended. *)
Definition state_of {S A} (r : Result S A) : S :=
  match r with
  | Returned _ s => s
  | Raised _ s => s
  end.

(** The platform under the program: the wall clock and the generator of the
    [random] module as oracles of the number of calls made before, and the
    two renderings of a [datetime] that the scanner uses. *)
Record Platform := mkPlatform {
  clock : nat -> datetime;          (* the n-th [datetime.now()] *)
  random : nat -> Q;                (* the n-th draw, as [random.random()] *)
  randbelow : nat -> Z -> Z;        (* the n-th draw, as [_randbelow(k)] *)
  strftime : datetime -> string;    (* [.strftime('%Y-%m-%d %H:%M:%S')] *)
  str_datetime : datetime -> string (* [str(datetime)] *)
}.

(** The contract of the generator: [random()] lies in [0, 1) and
    [_randbelow(k)] in [0, k). *)
Definition fair (P : Platform) : Prop :=
  (forall n, (0 <= random P n)%Q /\ (random P n < 1)%Q) /\
  (forall n k, 0 < k -> 0 <= randbelow P n k < k).

(** The part of the world outside the two objects. *)
Record Env := mkEnv {
  clock_reads : nat;
  random_draws : nat;
  stdout : list string
}.

Section Environment.

Variable P : Platform.

(** [datetime.now()] *)
Definition now : Eff Env datetime := fun e =>
  Returned (clock P (clock_reads e))
    {| clock_reads := S (clock_reads e);
       random_draws := random_draws e;
       stdout := stdout e |}.

(** [print(line)] *)
Definition print (line : string) : Eff Env unit := fun e =>
  Returned tt
    {| clock_reads := clock_reads e;
       random_draws := random_draws e;
       stdout := stdout e ++ [line] |}.

(** [random.uniform(a, b)]: [a + (b - a) * random()] *)
Definition uniform (a b : Q) : Eff Env Q := fun e =>
  Returned (a + (b - a) * random P (random_draws e))%Q
    {| clock_reads := clock_reads e;
       random_draws := S (random_draws e);
       stdout := stdout e |}.

(** [random.randint(a, b)]: [a + _randbelow(b + 1 - a)] *)
Definition randint (a b : Z) : Eff Env Z := fun e =>
  Returned (a + randbelow P (random_draws e) (b + 1 - a))
    {| clock_reads := clock_reads e;
       random_draws := S (random_draws e);
       stdout := stdout e |}.

End Environment.

(** [round(x, 2)]: to the nearest hundredth, a tie to the even one. *)
Definition round_half_even (y : Q) : Z :=
  let f := Qfloor y in
  match (y - inject_Z f ?= 1 # 2)%Q with
  | Lt => f
  | Gt => f + 1
  | Eq => if Z.even f then f else f + 1
  end.

Definition round2 (x : Q) : Q := Qmake (round_half_even (x * inject_Z 100)) 100.

(** ** stock_scanner.py *)

Module StockScanner.

(** The attributes of a [StockScanner] of its own; [data_manager] is a
    reference to the store shared with the page, kept in [World]. *)
Record t := mk {
  is_running : bool;
  total_scans : Z;
  last_scan_time : option datetime;
  next_scan_time : option datetime;
  scan_interval_minutes : Z
}.

(** [__init__] *)
Definition init : t :=
  {| is_running := false;
     total_scans := 0;
     last_scan_time := None;
     next_scan_time := None;
     scan_interval_minutes := 15 |}.

(** The scanner, the store it writes to and the environment. *)
Record World := mkWorld {
  self : t;
  data_manager : DataManager.t;
  env : Env
}.

(** Code that only touches the environment, run in the world. *)
Definition in_env {A} (m : Eff Env A) : Eff World A := fun w =>
  match m (env w) with
  | Returned a e' =>
      Returned a {| self := self w; data_manager := data_manager w; env := e' |}
  | Raised x e' =>
      Raised x {| self := self w; data_manager := data_manager w; env := e' |}
  end.

(** A method of [self.data_manager] without a result. *)
Definition on_data_manager (f : DataManager.t -> DataManager.t)
    : Eff World unit := fun w =>
  Returned tt
    {| self := self w; data_manager := f (data_manager w); env := env w |}.

(** Assignments to attributes of [self]. *)
Definition on_self (f : t -> t) : Eff World unit := fun w =>
  Returned tt
    {| self := f (self w); data_manager := data_manager w; env := env w |}.

(** One entry of [sample_stocks]. *)
Record Stock := mkStock {
  stock_symbol : string;
  stock_name : string;
  stock_sector : string;
  stock_market_cap : string
}.

Definition sample_stocks : list Stock :=
  [ mkStock "RELIANCE" "Reliance Industries Ltd" "Energy" "Large Cap";
    mkStock "TCS" "Tata Consultancy Services" "IT" "Large Cap";
    mkStock "HDFCBANK" "HDFC Bank Ltd" "Banking" "Large Cap";
    mkStock "INFY" "Infosys Ltd" "IT" "Large Cap";
    mkStock "HINDUNILVR" "Hindustan Unilever Ltd" "FMCG" "Large Cap";
    mkStock "ICICIBANK" "ICICI Bank Ltd" "Banking" "Large Cap";
    mkStock "KOTAKBANK" "Kotak Mahindra Bank" "Banking" "Large Cap";
    mkStock "BAJFINANCE" "Bajaj Finance Ltd" "Banking" "Large Cap";
    mkStock "MARUTI" "Maruti Suzuki India Ltd" "Auto" "Large Cap";
    mkStock "SUNPHARMA" "Sun Pharmaceutical Industries" "Pharma" "Large Cap";
    mkStock "WIPRO" "Wipro Ltd" "IT" "Large Cap";
    mkStock "TECHM" "Tech Mahindra Ltd" "IT" "Large Cap";
    mkStock "HCLTECH" "HCL Technologies Ltd" "IT" "Large Cap";
    mkStock "DRREDDY" "Dr Reddys Laboratories" "Pharma" "Large Cap";
    mkStock "CIPLA" "Cipla Ltd" "Pharma" "Large Cap";
    mkStock "TATAMOTORS" "Tata Motors Ltd" "Auto" "Large Cap";
    mkStock "BAJAJFINSV" "Bajaj Finserv Ltd" "Banking" "Large Cap";
    mkStock "NESTLEIND" "Nestle India Ltd" "FMCG" "Large Cap";
    mkStock "TITAN" "Titan Company Ltd" "FMCG" "Large Cap";
    mkStock "ASIANPAINT" "Asian Paints Ltd" "FMCG" "Large Cap" ].

Section Scanner.

Variable P : Platform.

(** The loop of [_fetch_stock_data] over the stocks still to do, with
    the list built so far. *)
Fixpoint fetch_loop (current_time : datetime) (stocks : list Stock)
    (stock_data : list Quote) : Eff Env (list Quote) :=
  match stocks with
  | [] => mret stock_data
  | stock :: stocks' =>
      base_price ← uniform P (inject_Z 100) (inject_Z 3000);
      change ← uniform P (inject_Z (-5)) (inject_Z 5);
      vol ← randint P 100000 10000000;
      fetch_loop current_time stocks'
        (stock_data ++
           [ {| symbol := stock_symbol stock;
                name := stock_name stock;
                price := round2 base_price;
                change_percent := round2 change;
                volume := vol;
                market_cap := stock_market_cap stock;
                sector := stock_sector stock;
                scan_time := strftime P current_time |} ])
  end.

Definition _fetch_stock_data : Eff Env (list Quote) :=
  current_time ← now P;
  fetch_loop current_time sample_stocks [].

(** The body of the [try] of [_perform_scan], for a fetch step [fetch]
    that stands for the call [self._fetch_stock_data()]. *)
Definition scan_body (fetch : Eff Env (list Quote)) : Eff World unit :=
  scan_start_time ← in_env (now P);
  in_env (print ("Starting scan at " +:+ str_datetime P scan_start_time));;
  stock_data ← in_env fetch;
  if decide (stock_data <> []) then
    on_data_manager (DataManager.store_scan_data stock_data scan_start_time);;
    on_self (fun s =>
      {| is_running := is_running s;
         total_scans := total_scans s + 1;
         last_scan_time := Some scan_start_time;
         next_scan_time :=
           Some (scan_start_time + timedelta_minutes (scan_interval_minutes s));
         scan_interval_minutes := scan_interval_minutes s |});;
    on_data_manager (DataManager.add_scan_history
      {| info_scan_time := strftime P scan_start_time;
         total_stocks := length stock_data;
         gainers := length (filter DataManager.is_gainer stock_data);
         losers := length (filter DataManager.is_loser stock_data);
         status := "Success" |});;
    in_env (print ("Scan completed successfully. Found "
                     +:+ pretty (length stock_data) +:+ " stocks."))
  else
    in_env (print "No data received from scan").

(** The [except Exception as e] of [_perform_scan]. *)
Definition scan_handler (e : Exception) : Eff World unit :=
  in_env (print ("Error during scan: " +:+ str e));;
  t_error ← in_env (now P);
  on_data_manager (DataManager.add_scan_history
    {| info_scan_time := strftime P t_error;
       total_stocks := 0;
       gainers := 0;
       losers := 0;
       status := "Error: " +:+ str e |}).

Definition _perform_scan_with (fetch : Eff Env (list Quote))
    : Eff World unit :=
  try_except (scan_body fetch) scan_handler.

(** [_perform_scan] as the class has it, on its own data source. *)
Definition _perform_scan : Eff World unit :=
  _perform_scan_with _fetch_stock_data.

(** [get_status] *)
Record Status := mkStatus {
  st_running : bool;
  st_total_scans : Z;
  st_last_scan_time : option datetime;
  st_next_scan_time : option datetime
}.

Definition get_status (s : t) : Status :=
  {| st_running := is_running s;
     st_total_scans := total_scans s;
     st_last_scan_time := last_scan_time s;
     st_next_scan_time := next_scan_time s |}.

End Scanner.

End StockScanner.

(** ** Runs of the store and the point of a cycle where the fetch happens *)

(** The calls that change a [DataManager]. *)
Inductive Call :=
  | CallStore (stock_data : list Quote) (scan_time : datetime)
  | CallAddHistory (scan_info : ScanInfo)
  | CallClear.

Definition call (self : DataManager.t) (c : Call) : DataManager.t :=
  match c with
  | CallStore stock_data scan_time =>
      DataManager.store_scan_data stock_data scan_time self
  | CallAddHistory scan_info => DataManager.add_scan_history scan_info self
  | CallClear => DataManager.clear_data self
  end.

(** A fresh [DataManager()] after a sequence of calls. *)
Definition after_calls (cs : list Call) : DataManager.t :=
  foldl call DataManager.init cs.

(** [add_scan_history] once per entry, in order. *)
Definition add_all (infos : list ScanInfo) (self : DataManager.t)
    : DataManager.t :=
  foldl (fun dm info => DataManager.add_scan_history info dm) self infos.

(** The last [cap] entries of a list, all of it when it is shorter. *)
Definition keep_last {A} (cap : nat) (l : list A) : list A :=
  drop (length l - cap) l.

(** The environment in which [_perform_scan] calls the fetch step: the
    clock has been read once more and the start line is printed. *)
Definition env_at_fetch (P : Platform) (e : Env) : Env :=
  {| clock_reads := S (clock_reads e);
     random_draws := random_draws e;
     stdout := stdout e ++
       ["Starting scan at " +:+ str_datetime P (clock P (clock_reads e))] |}.

(** The time that a cycle run in the world [w] records as its start. *)
Definition start_time (P : Platform) (w : StockScanner.World) : datetime :=
  clock P (clock_reads (StockScanner.env w)).

(** The dict of a successful cycle. *)
Definition success_info (P : Platform) (w : StockScanner.World)
    (l : list Quote) : ScanInfo :=
  {| info_scan_time := strftime P (start_time P w);
     total_stocks := length l;
     gainers := length (filter DataManager.is_gainer l);
     losers := length (filter DataManager.is_loser l);
     status := "Success" |}.

(** The dict of a failed cycle, after the fetch left the environment [e]. *)
Definition error_info (P : Platform) (e : Env) (x : Exception) : ScanInfo :=
  {| info_scan_time := strftime P (clock P (clock_reads e));
     total_stocks := 0;
     gainers := 0;
     losers := 0;
     status := "Error: " +:+ str x |}.

(** What a row must satisfy to pass the three filters. *)
Definition passes (market_cap_filter sector_filter : string)
    (price_range : Q * Q) (r : Quote) : Prop :=
  (market_cap_filter = "All" \/ market_cap r = market_cap_filter) /\
  (sector_filter = "All" \/ sector r = sector_filter) /\
  (price_range.1 <= price r)%Q /\ (price r <= price_range.2)%Q.

(** In a column, [best] is the entry at position [k] of [pre]: none of
    [pre] beats it and it beats all before it. *)
Definition leads (beats : Q -> Q -> Prop) (pre : list (nat * Q)) (k : nat)
    (best : nat * Q) : Prop :=
  pre !! k = Some best /\
  (forall j x, pre !! j = Some x -> ~ beats x.2 best.2) /\
  (forall j x, (j < k)%nat -> pre !! j = Some x -> beats best.2 x.2).

(** The ranges of the numbers of a generated record. *)
Definition in_range (r : Quote) : Prop :=
  (inject_Z 100 <= price r)%Q /\ (price r <= inject_Z 3000)%Q /\
  (inject_Z (-5) <= change_percent r)%Q /\ (change_percent r <= inject_Z 5)%Q /\
  0 < volume r.

(** The symbols of [sample_stocks]. *)
Definition sample_symbols : list string :=
  StockScanner.stock_symbol <$> StockScanner.sample_stocks.

(** ** Concrete inputs *)

(** A platform whose clock ticks once a second from some instant, whose
    generator always draws the middle of the unit interval and the least
    integer, and which renders a [datetime] as its number. *)
Definition steady_platform : Platform :=
  {| clock := fun n => 63000000000000000 + Z.of_nat n * 1000000;
     random := fun _ => (1 # 2)%Q;
     randbelow := fun _ _ => 0;
     strftime := fun t => pretty t;
     str_datetime := fun t => pretty t |}.

Definition fresh_env : Env :=
  {| clock_reads := 0; random_draws := 0; stdout := [] |}.

(** A scanner and a store just made, nothing printed yet. *)
Definition fresh_world : StockScanner.World :=
  {| StockScanner.self := StockScanner.init;
     StockScanner.data_manager := DataManager.init;
     StockScanner.env := fresh_env |}.

(** A data source that is down, and one that has nothing to report. *)
Definition failing_fetch : Eff Env (list Quote) :=
  raise {| str := "connection refused" |}.

Definition empty_fetch : Eff Env (list Quote) := mret [].

(** The two records of the scenario of the specification. *)
Definition quote_AAA : Quote :=
  {| symbol := "AAA"; name := "AAA Ltd";
     price := inject_Z 50; change_percent := inject_Z 2; volume := 1000;
     market_cap := "Small Cap"; sector := "IT";
     scan_time := "2024-01-01 09:15:00" |}.

Definition quote_BBB : Quote :=
  {| symbol := "BBB"; name := "BBB Ltd";
     price := inject_Z 5000; change_percent := inject_Z (-1); volume := 3000;
     market_cap := "Large Cap"; sector := "Banking";
     scan_time := "2024-01-01 09:15:00" |}.

Definition scenario_store : DataManager.t :=
  DataManager.store_scan_data [quote_AAA; quote_BBB]
    63000000000000000 DataManager.init.

(** A data source that reports the two records of the scenario. *)
Definition scenario_fetch : Eff Env (list Quote) :=
  mret [quote_AAA; quote_BBB].

(** [n] summaries, the i-th with [total_stocks = i]. *)
Definition numbered_infos (n : nat) : list ScanInfo :=
  (fun i => {| info_scan_time := pretty i; total_stocks := i;
               gainers := 0; losers := 0; status := "Success" |}) <$> seq 0 n.

(** ** The rest of the scanner: runs of cycles, start and stop *)

#[global] Instance passes_dec mc sec pr r : Decision (passes mc sec pr r).
Proof. unfold passes. apply _. Defined.

(** One cycle per fetch step, in order; a cycle always returns, so only the
    world it leaves is kept. *)
Definition run_cycles (P : Platform) (fetches : list (Eff Env (list Quote)))
    (w : StockScanner.World) : StockScanner.World :=
  foldl (fun w fetch => state_of (StockScanner._perform_scan_with P fetch w))
    w fetches.

(** The scanner in its process: the world of the cycle, the number of
    scanning threads started so far and the jobs registered with the
    [schedule] module, each with its interval in minutes.  What a started
    thread does afterwards is not part of the model. *)
Record Process := mkProcess {
  world : StockScanner.World;
  threads_started : nat;
  scheduled_jobs : list Z
}.

(** [self.is_running = b] *)
Definition set_running (b : bool) (w : StockScanner.World)
    : StockScanner.World :=
  {| StockScanner.self :=
       {| StockScanner.is_running := b;
          StockScanner.total_scans :=
            StockScanner.total_scans (StockScanner.self w);
          StockScanner.last_scan_time :=
            StockScanner.last_scan_time (StockScanner.self w);
          StockScanner.next_scan_time :=
            StockScanner.next_scan_time (StockScanner.self w);
          StockScanner.scan_interval_minutes :=
            StockScanner.scan_interval_minutes (StockScanner.self w) |};
     StockScanner.data_manager := StockScanner.data_manager w;
     StockScanner.env := StockScanner.env w |}.

(** [start_background_scanning], for a fetch step that stands for
    [self._fetch_stock_data()]: nothing when the scanner runs already;
    else the flag, the thread, the job and one cycle then and there. *)
Definition start_background_scanning_with (P : Platform)
    (fetch : Eff Env (list Quote)) : Eff Process unit := fun p =>
  if StockScanner.is_running (StockScanner.self (world p))
  then Returned tt p
  else
    let w := set_running true (world p) in
    let threads := S (threads_started p) in
    let jobs :=
      scheduled_jobs p
        ++ [StockScanner.scan_interval_minutes (StockScanner.self w)] in
    match StockScanner._perform_scan_with P fetch w with
    | Returned _ w' =>
        Returned tt
          {| world := w'; threads_started := threads; scheduled_jobs := jobs |}
    | Raised x w' =>
        Raised x
          {| world := w'; threads_started := threads; scheduled_jobs := jobs |}
    end.

Definition start_background_scanning (P : Platform) : Eff Process unit :=
  start_background_scanning_with P (StockScanner._fetch_stock_data P).

(** [stop_scanning]: the flag, [schedule.clear()], and a wait for the
    thread that changes nothing here. *)
Definition stop_scanning : Eff Process unit := fun p =>
  Returned tt
    {| world := set_running false (world p);
       threads_started := threads_started p;
       scheduled_jobs := [] |}.

(** A process just made: a fresh scanner and store, no thread, no job. *)
Definition fresh_process : Process :=
  {| world := fresh_world; threads_started := 0; scheduled_jobs := [] |}.

(** What the scanner writes to the log: a Success summary of a list with
    records, or an Error summary with zero counts. *)
Definition scanner_entry (info : ScanInfo) : Prop :=
  (status info = "Success" /\
   (0 < total_stocks info)%nat /\
   (gainers info + losers info <= total_stocks info)%nat) \/
  (exists msg,
     status info = "Error: " +:+ msg /\
     total_stocks info = 0%nat /\ gainers info = 0%nat /\ losers info = 0%nat).


(** The scanner and its store agree: the same timestamps, the interval of
    15 minutes, a frame with rows exactly when a scan has been counted, and
    a log of at most 100 summaries, all of them written by the scanner. *)
Definition in_step (w : StockScanner.World) : Prop :=
  let s := StockScanner.self w in
  let dm := StockScanner.data_manager w in
  StockScanner.last_scan_time s = DataManager.last_scan_time dm /\
  StockScanner.next_scan_time s = DataManager.next_scan_time dm /\
  StockScanner.scan_interval_minutes s = 15 /\
  0 <= StockScanner.total_scans s /\
  (StockScanner.total_scans s = 0 -> DataManager.current_scan_data dm = None) /\
  (0 < StockScanner.total_scans s ->
   exists l, l <> [] /\
     DataManager.current_scan_data dm = Some (pd.DataFrame_of l)) /\
  DataManager.max_history_items dm = 100 /\
  (length (DataManager.scan_history dm) <= 100)%nat /\
  Forall scanner_entry (DataManager.scan_history dm).

(** ** app.py: what the page computes from the store *)

Module app.

(** The note on the next scan: the minutes left, or that a scan is due. *)
Inductive NextScanNote :=
  | NextScanIn (minutes_left : Z)
  | ScanningNow.

(** Lines 47-53.  [time_to_next] is a [timedelta], here its microseconds;
    [int(time_to_next.total_seconds() / 60)] truncates the minutes, which
    the floats of the source do exactly for spans of years. *)
Definition next_scan_note (next_scan : option datetime) (now : datetime)
    : option NextScanNote :=
  match next_scan with
  | None => None
  | Some next =>
      let time_to_next := next - now in
      if decide (0 < time_to_next)
      then Some (NextScanIn (Z.quot time_to_next 60000000))
      else Some ScanningNow
  end.

(** Lines 101-115: the frame that the page shows, [None] when it shows
    that it waits for scan data.  The price range is the pair of integers
    of the slider. *)
Definition filtered_data (scan_data : option pd.DataFrame)
    (market_cap_filter sector_filter : string) (price_range : Z * Z)
    : option pd.DataFrame :=
  match scan_data with
  | None => None
  | Some scan_data =>
      if pd.empty scan_data then None
      else
        let filtered_data := scan_data in
        let filtered_data :=
          if decide (market_cap_filter <> "All")
          then pd.mask (DataManager.market_cap_is market_cap_filter)
                 filtered_data
          else filtered_data in
        let filtered_data :=
          if decide (sector_filter <> "All")
          then pd.mask (DataManager.sector_is sector_filter) filtered_data
          else filtered_data in
        Some (pd.mask
                (DataManager.price_in
                   (inject_Z price_range.1, inject_Z price_range.2))
                filtered_data)
  end.

(** Lines 120-142: the four metrics above the table. *)
Record Metrics := mkMetrics {
  metric_total : nat;
  metric_gainers : nat;
  metric_losers : nat;
  metric_avg_volume : Q
}.

Definition metrics (filtered_data : pd.DataFrame) : Metrics :=
  {| metric_total := length filtered_data;
     metric_gainers :=
       if decide (0 < length filtered_data)%nat
       then length (pd.mask DataManager.is_gainer filtered_data) else 0%nat;
     metric_losers :=
       if decide (0 < length filtered_data)%nat
       then length (pd.mask DataManager.is_loser filtered_data) else 0%nat;
     metric_avg_volume :=
       if decide (0 < length filtered_data)%nat
       then pd.mean_volume filtered_data else 0%Q |}.

End app.

(** More concrete inputs: a store with a cap of 3, one with a cap of 0, and
    a record that neither gains nor loses. *)
Definition store_with_cap (cap : Z) : DataManager.t :=
  {| DataManager.current_scan_data := None;
     DataManager.scan_history := [];
     DataManager.last_scan_time := None;
     DataManager.next_scan_time := None;
     DataManager.max_history_items := cap |}.

Definition quote_CCC : Quote :=
  {| symbol := "CCC"; name := "CCC Ltd";
     price := inject_Z 200; change_percent := inject_Z 0; volume := 2000;
     market_cap := "Mid Cap"; sector := "IT";
     scan_time := "2024-01-01 09:15:00" |}.

(** * Properties *)

(** ** The snapshot and its timestamps *)

Lemma rows_DataFrame_of (l : list Quote) : pd.rows (pd.DataFrame_of l) = l.
Proof.
  unfold pd.rows, pd.DataFrame_of.
  rewrite fmap_imap.
  rewrite (imap_ext _ (const id)) by done.
  rewrite imap_const. apply list_fmap_id.
Qed.

Lemma length_DataFrame_of (l : list Quote) :
  length (pd.DataFrame_of l) = length l.
Proof. apply length_imap. Qed.

Lemma lookup_DataFrame_of (l : list Quote) (i : nat) :
  pd.DataFrame_of l !! i = (fun r => (i, r)) <$> l !! i.
Proof. apply list_lookup_imap. Qed.

Example timedelta_15_minutes : timedelta_minutes 15 = 900000000.
Proof. reflexivity. Qed.

(** C1. After [store_scan_data S2 t2] on any state of the store, and so
    also after an earlier store of another snapshot, [get_latest_scan_data]
    returns the frame of exactly the rows [S2], [get_last_scan_time] returns
    [t2] and [get_next_scan_time] returns [t2] plus 15 minutes. *)
Theorem store_then_read (self : DataManager.t) (S2 : list Quote) (t2 : datetime) :
  let self' := DataManager.store_scan_data S2 t2 self in
  DataManager.get_latest_scan_data self' = Some (pd.DataFrame_of S2) /\
  pd.rows <$> DataManager.get_latest_scan_data self' = Some S2 /\
  DataManager.get_last_scan_time self' = Some t2 /\
  DataManager.get_next_scan_time self' = Some (t2 + timedelta_minutes 15) /\
  DataManager.get_next_scan_time self' = Some (t2 + 15 * 60 * 1000000).
Proof.
  cbn. rewrite rows_DataFrame_of. repeat split.
Qed.

(** The same after two stores in a row: nothing of the first one is left. *)
Corollary store_twice_reads_second (self : DataManager.t)
    (S1 S2 : list Quote) (t1 t2 : datetime) :
  let self' :=
    DataManager.store_scan_data S2 t2 (DataManager.store_scan_data S1 t1 self) in
  pd.rows <$> DataManager.get_latest_scan_data self' = Some S2 /\
  DataManager.get_last_scan_time self' = Some t2 /\
  DataManager.get_next_scan_time self' = Some (t2 + timedelta_minutes 15).
Proof.
  cbn. rewrite rows_DataFrame_of. repeat split.
Qed.

(** ** The history log *)

Section History.

Context {A : Type}.
Implicit Types (l : list A) (cap : nat).

Lemma keep_last_all cap l : (length l <= cap)%nat -> keep_last cap l = l.
Proof.
  intros Hle. unfold keep_last.
  replace (length l - cap)%nat with 0%nat by lia. done.
Qed.

Lemma length_keep_last cap l :
  length (keep_last cap l) = Nat.min (length l) cap.
Proof. unfold keep_last. rewrite length_drop. lia. Qed.

Lemma keep_last_snoc cap l x :
  (0 < cap)%nat ->
  keep_last cap (keep_last cap l ++ [x]) = keep_last cap (l ++ [x]).
Proof.
  intros Hcap.
  destruct (decide (length l <= cap)%nat) as [Hle|Hgt].
  - by rewrite (keep_last_all cap l).
  - unfold keep_last at 1 3.
    rewrite !length_app, length_keep_last. cbn [length].
    replace (Nat.min (length l) cap + 1 - cap)%nat with 1%nat by lia.
    rewrite !drop_app_le by (rewrite ?length_keep_last; lia).
    unfold keep_last. rewrite drop_drop.
    do 2 f_equal. lia.
Qed.

Lemma keep_last_app_long cap l k :
  (cap <= length k)%nat -> keep_last cap (l ++ k) = keep_last cap k.
Proof.
  intros Hle. unfold keep_last.
  rewrite length_app, drop_app_ge by lia.
  f_equal. lia.
Qed.

(** Python's [l[-cap:]] for a positive [cap]. *)
Lemma slice_from_neg cap l :
  (0 < cap)%nat -> slice_from (- Z.of_nat cap) l = keep_last cap l.
Proof.
  intros Hcap. unfold slice_from, keep_last.
  rewrite decide_True by lia. f_equal. lia.
Qed.

End History.

Lemma max_history_items_add (info : ScanInfo) (self : DataManager.t) :
  DataManager.max_history_items (DataManager.add_scan_history info self)
  = DataManager.max_history_items self.
Proof. done. Qed.

(** One [add_scan_history] under a positive cap: append, keep the last. *)
Lemma scan_history_add (info : ScanInfo) (self : DataManager.t) :
  0 < DataManager.max_history_items self ->
  DataManager.scan_history (DataManager.add_scan_history info self)
  = keep_last (Z.to_nat (DataManager.max_history_items self))
      (DataManager.scan_history self ++ [info]).
Proof.
  intros Hcap. cbn.
  set (cap := DataManager.max_history_items self) in *.
  set (l := DataManager.scan_history self ++ [info]).
  case_decide as Hlen.
  - rewrite <- (Z2Nat.id cap) at 1 by lia.
    apply slice_from_neg. lia.
  - symmetry. apply keep_last_all. lia.
Qed.

Lemma max_history_items_add_all (infos : list ScanInfo) (self : DataManager.t) :
  DataManager.max_history_items (add_all infos self)
  = DataManager.max_history_items self.
Proof.
  induction infos as [|x infos IH] using rev_ind; [done|].
  unfold add_all in *. by rewrite foldl_snoc, max_history_items_add.
Qed.

(** Any number of appends under a positive cap, on a log within the cap. *)
Lemma scan_history_add_all (infos : list ScanInfo) (self : DataManager.t) :
  0 < DataManager.max_history_items self ->
  (length (DataManager.scan_history self)
     <= Z.to_nat (DataManager.max_history_items self))%nat ->
  DataManager.scan_history (add_all infos self)
  = keep_last (Z.to_nat (DataManager.max_history_items self))
      (DataManager.scan_history self ++ infos).
Proof.
  intros Hcap Hlen.
  induction infos as [|x infos IH] using rev_ind.
  - cbn. rewrite app_nil_r. symmetry. by apply keep_last_all.
  - pose proof (max_history_items_add_all infos self) as Hmax.
    unfold add_all in *. rewrite foldl_snoc.
    rewrite scan_history_add by (rewrite Hmax; lia).
    rewrite Hmax, IH, keep_last_snoc by lia.
    by rewrite app_assoc.
Qed.

(** What every sequence of calls on a fresh store preserves. *)
Lemma after_calls_invariant (cs : list Call) :
  DataManager.max_history_items (after_calls cs) = 100 /\
  (length (DataManager.scan_history (after_calls cs)) <= 100)%nat.
Proof.
  unfold after_calls.
  induction cs as [|c cs [IHmax IHlen]] using rev_ind.
  - cbn. lia.
  - rewrite foldl_snoc.
    set (dm := foldl call DataManager.init cs) in *.
    destruct c as [l t|info|]; cbn [call].
    + done.
    + split; [done|].
      rewrite scan_history_add by lia.
      rewrite length_keep_last, IHmax. lia.
    + cbn. split; [done|lia].
Qed.

(** C4. On a store made by [DataManager()] and changed by any sequence of
    calls, the log holds at most [max_history_items] = 100 entries; after
    any further appends it is the last 100 entries of the log followed by
    the appended ones, oldest first; and once more than 100 (or 100) have
    been appended it has exactly 100 entries, the 100 appended last, in the
    order of their insertion. *)
Theorem history_bounded (cs : list Call) (infos : list ScanInfo) :
  let self := after_calls cs in
  let self' := add_all infos self in
  DataManager.max_history_items self' = 100 /\
  (length (DataManager.get_scan_history self') <= 100)%nat /\
  DataManager.get_scan_history self'
    = keep_last 100 (DataManager.get_scan_history self ++ infos) /\
  ((100 <= length infos)%nat ->
     length (DataManager.get_scan_history self') = 100%nat /\
     DataManager.get_scan_history self'
       = drop (length infos - 100) infos).
Proof.
  intros self self'.
  destruct (after_calls_invariant cs) as [Hmax Hlen]. fold self in Hmax, Hlen.
  assert (Hhist : DataManager.get_scan_history self'
                  = keep_last 100 (DataManager.get_scan_history self ++ infos)).
  { unfold self', DataManager.get_scan_history.
    rewrite scan_history_add_all by (rewrite Hmax; lia).
    by rewrite Hmax. }
  split; [|split; [|split]].
  - unfold self'. by rewrite max_history_items_add_all.
  - rewrite Hhist, length_keep_last. lia.
  - done.
  - intros Hlong. rewrite Hhist, keep_last_app_long by done.
    split; [|done]. rewrite length_keep_last. lia.
Qed.

(** With [max_history_items = 0] the slice [l[-0:]] is the whole list. *)
Remark slice_from_zero {A} (l : list A) : slice_from (- 0) l = l.
Proof. done. Qed.

(** ** The filters *)

Section Mask.

Context (P : Quote -> Prop) `{!forall r, Decision (P r)}.
Implicit Types df : list (nat * Quote).

Lemma mask_sublist df : pd.mask P df `sublist_of` df.
Proof. apply sublist_filter. Qed.

Lemma mask_Forall df : Forall P (pd.rows (pd.mask P df)).
Proof.
  unfold pd.rows, pd.mask. rewrite Forall_fmap, Forall_forall.
  intros ir Hin. apply list_elem_of_filter in Hin. cbn. tauto.
Qed.

Lemma mask_all df : Forall P (pd.rows df) -> pd.mask P df = df.
Proof.
  unfold pd.rows, pd.mask. rewrite Forall_fmap.
  induction 1 as [|ir df Hir _ IH]; [done|].
  rewrite filter_cons_True by done. by rewrite IH.
Qed.

End Mask.

Lemma rows_sublist (df1 df2 : list (nat * Quote)) :
  df1 `sublist_of` df2 -> pd.rows df1 `sublist_of` pd.rows df2.
Proof. intros H. unfold pd.rows. by apply fmap_sublist. Qed.

Lemma rows_Forall_sublist (Q : Quote -> Prop) (df1 df2 : list (nat * Quote)) :
  df1 `sublist_of` df2 -> Forall Q (pd.rows df2) -> Forall Q (pd.rows df1).
Proof.
  intros Hsub%rows_sublist. rewrite !Forall_forall.
  intros HQ r Hr. apply HQ. by eapply sublist_subseteq.
Qed.

(** On a frame with rows, [get_filtered_data] is the three masks. *)
Lemma get_filtered_data_Some (mc sec : string) (pr : Q * Q)
    (self : DataManager.t) (data : list (nat * Quote)) :
  DataManager.get_latest_scan_data self = Some data ->
  data <> [] ->
  exists out,
    DataManager.get_filtered_data mc sec pr self = Some out /\
    out `sublist_of` data /\
    Forall (passes mc sec pr) (pd.rows out).
Proof.
  intros Hdata Hne. unfold DataManager.get_filtered_data. rewrite Hdata.
  destruct data as [|ir data]; [done|]. cbn [pd.empty].
  set (d0 := ir :: data).
  set (d1 := if decide (mc <> "All")
             then pd.mask (DataManager.market_cap_is mc) d0 else d0).
  set (d2 := if decide (sec <> "All")
             then pd.mask (DataManager.sector_is sec) d1 else d1).
  assert (H1 : d1 `sublist_of` d0).
  { unfold d1. case_decide; [apply mask_sublist|done]. }
  assert (H2 : d2 `sublist_of` d1).
  { unfold d2. case_decide; [apply mask_sublist|done]. }
  assert (F1 : Forall (fun r => mc = "All" \/ market_cap r = mc) (pd.rows d1)).
  { unfold d1. case_decide as Hmc.
    - eapply Forall_impl; [apply mask_Forall|]. intros r Hr. by right.
    - apply Forall_forall. intros r _. left.
      by destruct (decide (mc = "All")). }
  assert (F2 : Forall (fun r => sec = "All" \/ sector r = sec) (pd.rows d2)).
  { unfold d2. case_decide as Hsec.
    - eapply Forall_impl; [apply mask_Forall|]. intros r Hr. by right.
    - apply Forall_forall. intros r _. left.
      by destruct (decide (sec = "All")). }
  exists (pd.mask (DataManager.price_in pr) d2).
  split; [done|]. split.
  - etrans; [apply mask_sublist|]. by etrans.
  - pose proof (mask_sublist (DataManager.price_in pr) d2) as H3.
    pose proof (mask_Forall (DataManager.price_in pr) d2) as F3.
    eapply rows_Forall_sublist in F2; [|exact H3].
    eapply rows_Forall_sublist in F1; [|by etrans].
    rewrite Forall_forall in F1, F2, F3. apply Forall_forall.
    intros r Hr. unfold passes.
    specialize (F1 r Hr). specialize (F2 r Hr). specialize (F3 r Hr).
    unfold DataManager.price_in in F3. tauto.
Qed.

(** C5, as the code has it.  When the store holds a frame with at least one
    row, [get_filtered_data] returns a frame that is a subsequence of it, in
    its order, whose rows all satisfy the market-cap filter unless it is
    "All", the sector filter unless it is "All", and lie in the price range,
    both ends included.  When the store holds no frame, or a frame without
    rows, it returns [None]. *)
Theorem filtered_data_sound (mc sec : string) (pr : Q * Q)
    (self : DataManager.t) :
  match DataManager.get_latest_scan_data self with
  | None => DataManager.get_filtered_data mc sec pr self = None
  | Some [] => DataManager.get_filtered_data mc sec pr self = None
  | Some data =>
      exists out,
        DataManager.get_filtered_data mc sec pr self = Some out /\
        out `sublist_of` data /\
        pd.rows out `sublist_of` pd.rows data /\
        Forall (passes mc sec pr) (pd.rows out)
  end.
Proof.
  destruct (DataManager.get_latest_scan_data self) as [[|ir data]|] eqn:Hdata.
  - unfold DataManager.get_filtered_data. by rewrite Hdata.
  - destruct (get_filtered_data_Some mc sec pr self (ir :: data))
      as (out & Hout & Hsub & Hall); [done..|].
    exists out. eauto using rows_sublist.
  - unfold DataManager.get_filtered_data. by rewrite Hdata.
Qed.

(** C5 as it is stated fails on a stored snapshot without records: there
    is no frame that [get_filtered_data] returns for it. *)
Lemma filtered_data_of_empty_snapshot :
  let self := DataManager.store_scan_data [] 0 DataManager.init in
  DataManager.get_latest_scan_data self = Some [] /\
  ~ exists out,
      DataManager.get_filtered_data "All" "All"
        DataManager.default_price_range self = Some out /\
      pd.rows out `sublist_of` [].
Proof.
  cbn. split; [done|]. intros (out & Hout & _). discriminate.
Qed.

(** C6. When the store holds a frame with at least one row, both filters
    are "All" and the price range covers the price of every row, the frame
    that [get_filtered_data] returns has the rows of the stored one: the
    same multiset, and the same sequence. *)
Theorem filtered_data_all (lo hi : Q) (self : DataManager.t)
    (data : list (nat * Quote)) :
  DataManager.get_latest_scan_data self = Some data ->
  data <> [] ->
  Forall (fun r => (lo <= price r)%Q /\ (price r <= hi)%Q) (pd.rows data) ->
  exists out,
    DataManager.get_filtered_data "All" "All" (lo, hi) self = Some out /\
    pd.rows out ≡ₚ pd.rows data /\
    out = data.
Proof.
  intros Hdata Hne Hcover.
  exists data. split; [|done].
  unfold DataManager.get_filtered_data. rewrite Hdata.
  destruct data as [|ir data]; [done|]. cbn [pd.empty].
  rewrite !decide_False by (intros Hneq; by apply Hneq).
  by rewrite mask_all.
Qed.

(** ** The statistics *)

Section First_best_spec.

Variable beats : Q -> Q -> Prop.
Context `{!RelDecision beats}.

(** What the scan needs of the comparison: nothing beats itself, and a
    value that beats the best so far beats all that it did not lose to. *)
Hypothesis beats_irrefl : forall v, ~ beats v v.
Hypothesis beats_pass : forall x b v, ~ beats x b -> beats v b -> beats v x.
Hypothesis beats_keep : forall x b v, ~ beats x b -> beats v b -> ~ beats x v.

Lemma first_best_from_leads (s pre : list (nat * Q)) (k : nat) (best : nat * Q) :
  leads beats pre k best ->
  exists k' best',
    leads beats (pre ++ s) k' best' /\ pd.first_best_from beats best s = best'.1.
Proof.
  revert pre k best.
  induction s as [|iv s IH]; intros pre k best (Hk & Hmax & Hbefore).
  - exists k, best. rewrite app_nil_r. by repeat split.
  - cbn [pd.first_best_from].
    replace (pre ++ iv :: s) with ((pre ++ [iv]) ++ s)
      by (by rewrite <- app_assoc).
    case_decide as Hbeats.
    + apply (IH (pre ++ [iv]) (length pre) iv). repeat split.
      * by rewrite list_lookup_middle.
      * intros j x Hj. apply lookup_app_Some in Hj as [Hj|[_ Hj]].
        -- eapply beats_keep; [|exact Hbeats]. by eapply Hmax.
        -- apply list_lookup_singleton_Some in Hj as [_ <-].
           apply beats_irrefl.
      * intros j x Hlt Hj. rewrite lookup_app_l in Hj by done.
        eapply beats_pass; [|exact Hbeats]. by eapply Hmax.
    + apply (IH (pre ++ [iv]) k best). repeat split.
      * apply lookup_app_l_Some. done.
      * intros j x Hj. apply lookup_app_Some in Hj as [Hj|[_ Hj]].
        -- by eapply Hmax.
        -- by apply list_lookup_singleton_Some in Hj as [_ <-].
      * intros j x Hlt Hj. apply lookup_lt_Some in Hk.
        rewrite lookup_app_l in Hj by lia. by eapply Hbefore.
Qed.

Lemma first_best_leads (s : list (nat * Q)) :
  s <> [] ->
  exists k best,
    leads beats s k best /\ pd.first_best beats s = Some best.1.
Proof.
  destruct s as [|iv s]; [done|]. intros _.
  destruct (first_best_from_leads s [iv] 0 iv) as (k & best & Hleads & Heq).
  - repeat split.
    + intros [|j] x Hj; [|done]. injection Hj as <-. apply beats_irrefl.
    + intros j x Hlt. lia.
  - exists k, best. split; [done|]. cbn. by rewrite Heq.
Qed.

End First_best_spec.

Lemma larger_irrefl v : ~ pd.larger v v.
Proof. apply Qlt_irrefl. Qed.

Lemma larger_pass x b v : ~ pd.larger x b -> pd.larger v b -> pd.larger v x.
Proof.
  unfold pd.larger. intros Hx%Qnot_lt_le Hv. by eapply Qle_lt_trans.
Qed.

Lemma larger_keep x b v : ~ pd.larger x b -> pd.larger v b -> ~ pd.larger x v.
Proof.
  unfold pd.larger. intros Hx%Qnot_lt_le Hv. apply Qle_not_lt.
  eapply Qle_trans; [exact Hx|]. by apply Qlt_le_weak.
Qed.

Lemma smaller_irrefl v : ~ pd.smaller v v.
Proof. apply Qlt_irrefl. Qed.

Lemma smaller_pass x b v : ~ pd.smaller x b -> pd.smaller v b -> pd.smaller v x.
Proof.
  unfold pd.smaller. intros Hx%Qnot_lt_le Hv. by eapply Qlt_le_trans.
Qed.

Lemma smaller_keep x b v : ~ pd.smaller x b -> pd.smaller v b -> ~ pd.smaller x v.
Proof.
  unfold pd.smaller. intros Hx%Qnot_lt_le Hv. apply Qle_not_lt.
  eapply Qle_trans; [|exact Hx]. by apply Qlt_le_weak.
Qed.

(** In the frame of a list the labels are the positions. *)
Lemma loc_imap_from (l : list Quote) (n k : nat) :
  pd.loc (imap (fun i r => (n + i, r)%nat) l) (n + k) = l !! k.
Proof.
  revert n k. induction l as [|r l IH]; intros n k; [done|].
  rewrite imap_cons. cbn [pd.loc fst snd].
  destruct k as [|k].
  - rewrite decide_True by lia. done.
  - rewrite decide_False by lia.
    etrans; [|exact (IH (S n) k)].
    replace (S n + k)%nat with (n + S k)%nat by lia.
    f_equal. apply imap_ext. intros i x _. cbn. f_equal. lia.
Qed.

Lemma loc_DataFrame_of (l : list Quote) (k : nat) :
  pd.loc (pd.DataFrame_of l) k = l !! k.
Proof. apply (loc_imap_from l 0 k). Qed.

Lemma lookup_column_DataFrame_of (col : Quote -> Q) (l : list Quote) (k : nat) :
  pd.column col (pd.DataFrame_of l) !! k = (fun r => (k, col r)) <$> l !! k.
Proof.
  unfold pd.column. rewrite list_lookup_fmap, lookup_DataFrame_of.
  by destruct (l !! k).
Qed.

(** The row that [idxmax]/[idxmin] and [loc] pick in the frame of a list:
    it is at some position, no row beats it, and it beats all rows before. *)
Lemma first_best_row (beats : Q -> Q -> Prop) `{!RelDecision beats}
    (l : list Quote) :
  (forall v, ~ beats v v) ->
  (forall x b v, ~ beats x b -> beats v b -> beats v x) ->
  (forall x b v, ~ beats x b -> beats v b -> ~ beats x v) ->
  l <> [] ->
  exists k g,
    pd.first_best beats (pd.column change_percent (pd.DataFrame_of l))
      ≫= pd.loc (pd.DataFrame_of l) = Some g /\
    l !! k = Some g /\
    (forall j r, l !! j = Some r ->
       ~ beats (change_percent r) (change_percent g)) /\
    (forall j r, (j < k)%nat -> l !! j = Some r ->
       beats (change_percent g) (change_percent r)).
Proof.
  intros Hirr Hpass Hkeep Hne.
  set (s := pd.column change_percent (pd.DataFrame_of l)).
  destruct (first_best_leads beats Hirr Hpass Hkeep s)
    as (k & [lbl v] & (Hk & Hmax & Hbefore) & Hbest).
  { unfold s, pd.column, pd.DataFrame_of. destruct l; [done|].
    rewrite imap_cons. done. }
  unfold s in Hk. rewrite lookup_column_DataFrame_of in Hk.
  destruct (l !! k) as [g|] eqn:Hg; [|done].
  injection Hk as <- <-.
  exists k, g. rewrite Hbest. cbn. rewrite loc_DataFrame_of.
  repeat split; [done..| |].
  - intros j r Hj. apply (Hmax j (j, change_percent r)).
    unfold s. rewrite lookup_column_DataFrame_of, Hj. done.
  - intros j r Hlt Hj. apply (Hbefore j (j, change_percent r)); [done|].
    unfold s. rewrite lookup_column_DataFrame_of, Hj. done.
Qed.

(** C7. Without a frame in the store, or with a frame without rows,
    [get_statistics] returns zero counts, a zero average volume and no top
    gainer or loser.  On the frame of a list with records its top gainer is
    a record of the list of the largest [change_percent], the first such in
    the order of the list, and its top loser one of the smallest
    [change_percent], again the first such. *)
Theorem statistics_extremes :
  (forall self,
     DataManager.get_latest_scan_data self = None \/
     DataManager.get_latest_scan_data self = Some [] ->
     DataManager.get_statistics self
     = {| DataManager.stat_total_stocks := 0;
          DataManager.stat_gainers := 0;
          DataManager.stat_losers := 0;
          DataManager.avg_volume := 0%Q;
          DataManager.top_gainer := None;
          DataManager.top_loser := None |}) /\
  (forall self0 (l : list Quote) (t : datetime),
     l <> [] ->
     let stats :=
       DataManager.get_statistics (DataManager.store_scan_data l t self0) in
     (exists k g,
        DataManager.top_gainer stats = Some g /\
        l !! k = Some g /\
        (forall j r, l !! j = Some r ->
           (change_percent r <= change_percent g)%Q) /\
        (forall j r, (j < k)%nat -> l !! j = Some r ->
           (change_percent r < change_percent g)%Q)) /\
     (exists k g,
        DataManager.top_loser stats = Some g /\
        l !! k = Some g /\
        (forall j r, l !! j = Some r ->
           (change_percent g <= change_percent r)%Q) /\
        (forall j r, (j < k)%nat -> l !! j = Some r ->
           (change_percent g < change_percent r)%Q))).
Proof.
  split.
  - intros self [Hnone|Hempty]; unfold DataManager.get_statistics.
    + by rewrite Hnone.
    + by rewrite Hempty.
  - intros self0 l t Hne stats.
    assert (Hrows : pd.DataFrame_of l <> []).
    { intros Hnil. apply (f_equal length) in Hnil.
      rewrite length_DataFrame_of in Hnil. by destruct l. }
    assert (Hlen : (0 < length (pd.DataFrame_of l))%nat).
    { rewrite length_DataFrame_of. destruct l; [done|cbn; lia]. }
    unfold stats, DataManager.get_statistics. cbn.
    destruct (pd.DataFrame_of l) as [|ir df] eqn:Hdf; [done|].
    cbn [pd.empty DataManager.top_gainer DataManager.top_loser].
    rewrite !decide_True by done. rewrite <- Hdf. split.
    + destruct (first_best_row pd.larger l
                  larger_irrefl larger_pass larger_keep Hne)
        as (k & g & Htop & Hk & Hmax & Hbefore).
      exists k, g. repeat split; [done..| |].
      * intros j r Hj. apply Qnot_lt_le. by eapply Hmax.
      * intros j r Hlt Hj. by eapply Hbefore.
    + destruct (first_best_row pd.smaller l
                  smaller_irrefl smaller_pass smaller_keep Hne)
        as (k & g & Htop & Hk & Hmin & Hbefore).
      exists k, g. repeat split; [done..| |].
      * intros j r Hj. apply Qnot_lt_le. by eapply Hmin.
      * intros j r Hlt Hj. by eapply Hbefore.
Qed.

(** ** The scan cycle *)

Section Cycle.

Import StockScanner.

Variable P : Platform.
Variable fetch : Eff Env (list Quote).
Implicit Types (w : World) (x : Exception) (l : list Quote) (e : Env).

Lemma scan_body_raised w x e :
  fetch (env_at_fetch P (env w)) = Raised x e ->
  scan_body P fetch w
  = Raised x {| self := self w; data_manager := data_manager w; env := e |}.
Proof.
  intros Hfetch.
  unfold scan_body, mbind, Eff_bind, in_env, now, print. cbn.
  unfold env_at_fetch in Hfetch. by rewrite Hfetch.
Qed.

Lemma scan_body_no_data w e :
  fetch (env_at_fetch P (env w)) = Returned [] e ->
  scan_body P fetch w
  = Returned tt
      {| self := self w;
         data_manager := data_manager w;
         env := {| clock_reads := clock_reads e;
                   random_draws := random_draws e;
                   stdout := stdout e ++ ["No data received from scan"] |} |}.
Proof.
  intros Hfetch.
  unfold scan_body, mbind, Eff_bind, in_env, now, print. cbn.
  unfold env_at_fetch in Hfetch. by rewrite Hfetch.
Qed.

Lemma scan_body_data w l e :
  fetch (env_at_fetch P (env w)) = Returned l e ->
  l <> [] ->
  scan_body P fetch w
  = Returned tt
      {| self :=
           {| is_running := is_running (self w);
              total_scans := total_scans (self w) + 1;
              last_scan_time := Some (start_time P w);
              next_scan_time :=
                Some (start_time P w
                      + timedelta_minutes (scan_interval_minutes (self w)));
              scan_interval_minutes := scan_interval_minutes (self w) |};
         data_manager :=
           DataManager.add_scan_history (success_info P w l)
             (DataManager.store_scan_data l (start_time P w) (data_manager w));
         env := {| clock_reads := clock_reads e;
                   random_draws := random_draws e;
                   stdout := stdout e ++
                     ["Scan completed successfully. Found "
                        +:+ pretty (length l) +:+ " stocks."] |} |}.
Proof.
  intros Hfetch Hne.
  unfold scan_body, mbind, Eff_bind, in_env, now, print. cbn.
  unfold env_at_fetch in Hfetch. rewrite Hfetch.
  rewrite decide_True by done. done.
Qed.

Lemma scan_handler_returns x w :
  scan_handler P x w
  = Returned tt
      {| self := self w;
         data_manager :=
           DataManager.add_scan_history (error_info P (env w) x) (data_manager w);
         env := {| clock_reads := S (clock_reads (env w));
                   random_draws := random_draws (env w);
                   stdout := stdout (env w) ++
                     ["Error during scan: " +:+ str x] |} |}.
Proof. done. Qed.

(** One append on a log that has room left. *)
Lemma scan_history_add_room (info : ScanInfo) (dm : DataManager.t) :
  Z.of_nat (length (DataManager.scan_history dm))
    < DataManager.max_history_items dm ->
  DataManager.scan_history (DataManager.add_scan_history info dm)
  = DataManager.scan_history dm ++ [info].
Proof.
  intros Hroom. cbn. rewrite decide_False; [done|].
  rewrite length_app. cbn. lia.
Qed.

(** C2. When the fetch step of a cycle raises, [_perform_scan] returns
    normally and has called [add_scan_history] once, with a summary of
    status "Error: ..." and zero counts, so that a log with room left is
    the old one with that one summary at its end; [total_scans] and the
    scanner's other attributes, the stored frame and the two timestamps
    of the store are as they were before the cycle. *)
Theorem failed_fetch_logs_error w x e :
  fetch (env_at_fetch P (env w)) = Raised x e ->
  exists w' info,
    _perform_scan_with P fetch w = Returned tt w' /\
    data_manager w' = DataManager.add_scan_history info (data_manager w) /\
    status info = "Error: " +:+ str x /\
    total_stocks info = 0%nat /\ gainers info = 0%nat /\ losers info = 0%nat /\
    (Z.of_nat (length (DataManager.get_scan_history (data_manager w)))
       < DataManager.max_history_items (data_manager w) ->
     DataManager.get_scan_history (data_manager w')
     = DataManager.get_scan_history (data_manager w) ++ [info]) /\
    self w' = self w /\
    total_scans (self w') = total_scans (self w) /\
    last_scan_time (self w') = last_scan_time (self w) /\
    next_scan_time (self w') = next_scan_time (self w) /\
    DataManager.get_last_scan_time (data_manager w')
      = DataManager.get_last_scan_time (data_manager w) /\
    DataManager.get_next_scan_time (data_manager w')
      = DataManager.get_next_scan_time (data_manager w) /\
    DataManager.get_latest_scan_data (data_manager w')
      = DataManager.get_latest_scan_data (data_manager w).
Proof.
  intros Hfetch.
  eexists _, (error_info P e x).
  unfold _perform_scan_with, try_except.
  rewrite (scan_body_raised w x e Hfetch), scan_handler_returns.
  split; [reflexivity|]. cbn [self data_manager env].
  repeat split.
  intros Hroom. by apply scan_history_add_room.
Qed.

(** The counts of a list of records. *)
Lemma gainers_losers_le l :
  (length (filter DataManager.is_gainer l)
   + length (filter DataManager.is_loser l) <= length l)%nat.
Proof.
  induction l as [|r l IH]; [done|].
  rewrite !filter_cons. cbn [length].
  destruct (decide (DataManager.is_gainer r)) as [Hg|Hg];
    destruct (decide (DataManager.is_loser r)) as [Hl|Hl];
    cbn [length]; try lia.
  unfold DataManager.is_gainer, DataManager.is_loser in *.
  exfalso. apply (Qlt_irrefl 0). by eapply Qlt_trans.
Qed.

(** C3. When the fetch step of a cycle returns a list of N > 0 records,
    [_perform_scan] returns normally; the store then holds the frame of
    exactly that list with the start time of the cycle as its last scan
    time and that time plus 15 minutes as its next; [total_scans] is one
    more than before; and [add_scan_history] has been called once, with a
    summary of status "Success" whose [total_stocks] is N, whose
    [gainers] counts the records with [change_percent > 0] and whose
    [losers] counts those with [change_percent < 0], so that
    [gainers + losers <= N]. *)
Theorem successful_fetch_is_stored w l e :
  fetch (env_at_fetch P (env w)) = Returned l e ->
  l <> [] ->
  exists w' info,
    _perform_scan_with P fetch w = Returned tt w' /\
    data_manager w'
      = DataManager.add_scan_history info
          (DataManager.store_scan_data l (start_time P w) (data_manager w)) /\
    DataManager.get_latest_scan_data (data_manager w')
      = Some (pd.DataFrame_of l) /\
    pd.rows <$> DataManager.get_latest_scan_data (data_manager w') = Some l /\
    DataManager.get_last_scan_time (data_manager w') = Some (start_time P w) /\
    DataManager.get_next_scan_time (data_manager w')
      = Some (start_time P w + timedelta_minutes 15) /\
    total_scans (self w') = total_scans (self w) + 1 /\
    last_scan_time (self w') = Some (start_time P w) /\
    next_scan_time (self w')
      = Some (start_time P w
              + timedelta_minutes (scan_interval_minutes (self w))) /\
    status info = "Success" /\
    total_stocks info = length l /\
    gainers info = length (filter (fun r => (0 < change_percent r)%Q) l) /\
    losers info = length (filter (fun r => (change_percent r < 0)%Q) l) /\
    (gainers info + losers info <= length l)%nat /\
    (Z.of_nat (length (DataManager.get_scan_history (data_manager w)))
       < DataManager.max_history_items (data_manager w) ->
     DataManager.get_scan_history (data_manager w')
     = DataManager.get_scan_history (data_manager w) ++ [info]).
Proof.
  intros Hfetch Hne.
  eexists _, (success_info P w l).
  unfold _perform_scan_with, try_except.
  rewrite (scan_body_data w l e Hfetch Hne).
  split; [reflexivity|]. cbn [self data_manager env].
  split; [reflexivity|].
  split; [reflexivity|].
  split; [cbn; by rewrite rows_DataFrame_of|].
  repeat (split; [reflexivity|]).
  split; [apply gainers_losers_le|].
  intros Hroom.
  exact (scan_history_add_room (success_info P w l)
           (DataManager.store_scan_data l (start_time P w) (data_manager w))
           Hroom).
Qed.

End Cycle.

(** C8, as the code has it.  A cycle whose fetch raises calls
    [add_scan_history] once, with an Error summary; a cycle whose fetch
    returns records calls it once, with a Success summary; a cycle whose
    fetch returns an empty list leaves the store as it was: it logs no
    summary.  All three return normally. *)
Theorem one_summary_unless_no_data (P : Platform)
    (fetch : Eff Env (list Quote)) (w : StockScanner.World) :
  match fetch (env_at_fetch P (StockScanner.env w)) with
  | Raised x _ =>
      exists w' info,
        StockScanner._perform_scan_with P fetch w = Returned tt w' /\
        StockScanner.data_manager w'
          = DataManager.add_scan_history info (StockScanner.data_manager w) /\
        status info = "Error: " +:+ str x
  | Returned [] _ =>
      exists w',
        StockScanner._perform_scan_with P fetch w = Returned tt w' /\
        StockScanner.data_manager w' = StockScanner.data_manager w
  | Returned (_ :: _) _ =>
      exists w' info,
        StockScanner._perform_scan_with P fetch w = Returned tt w' /\
        DataManager.get_scan_history (StockScanner.data_manager w')
          = DataManager.get_scan_history
              (DataManager.add_scan_history info (StockScanner.data_manager w)) /\
        status info = "Success"
  end.
Proof.
  destruct (fetch (env_at_fetch P (StockScanner.env w)))
    as [[|r l] e|x e] eqn:Hfetch.
  - eexists.
    unfold StockScanner._perform_scan_with, try_except.
    rewrite (scan_body_no_data P fetch w e Hfetch). done.
  - eexists _, (success_info P w (r :: l)).
    unfold StockScanner._perform_scan_with, try_except.
    rewrite (scan_body_data P fetch w (r :: l) e Hfetch) by done. done.
  - eexists _, (error_info P e x).
    unfold StockScanner._perform_scan_with, try_except.
    rewrite (scan_body_raised P fetch w x e Hfetch), scan_handler_returns.
    done.
Qed.

(** ** The built-in data source *)

(** Rounding to the nearest integer stays between integer bounds. *)
Lemma round_half_even_bounds (a b : Z) (y : Q) :
  (inject_Z a <= y)%Q -> (y <= inject_Z b)%Q ->
  a <= round_half_even y <= b.
Proof.
  intros Ha Hb.
  assert (Hfa : a <= Qfloor y).
  { rewrite <- (Qfloor_Z a). by apply Qfloor_resp_le. }
  assert (Hfb : Qfloor y <= b).
  { rewrite <- (Qfloor_Z b). by apply Qfloor_resp_le. }
  assert (Hup : (0 < y - inject_Z (Qfloor y))%Q -> Qfloor y + 1 <= b).
  { intros Hpos.
    assert (Hlt : (inject_Z (Qfloor y) < inject_Z b)%Q).
    { eapply Qlt_le_trans; [|exact Hb].
      apply (Qplus_lt_l _ _ (- inject_Z (Qfloor y))).
      rewrite Qplus_opp_r. exact Hpos. }
    rewrite <- Zlt_Qlt in Hlt. lia. }
  unfold round_half_even.
  destruct (y - inject_Z (Qfloor y) ?= 1 # 2)%Q eqn:Hcmp.
  - apply Qeq_alt in Hcmp.
    assert (Hpos : (0 < y - inject_Z (Qfloor y))%Q) by (by rewrite Hcmp).
    specialize (Hup Hpos).
    destruct (Z.even (Qfloor y)); lia.
  - lia.
  - apply Qgt_alt in Hcmp.
    assert (Hpos : (0 < y - inject_Z (Qfloor y))%Q).
    { eapply Qlt_trans; [|exact Hcmp]. done. }
    specialize (Hup Hpos). lia.
Qed.

Lemma round2_bounds (a b : Z) (x : Q) :
  (inject_Z a <= x)%Q -> (x <= inject_Z b)%Q ->
  (inject_Z a <= round2 x)%Q /\ (round2 x <= inject_Z b)%Q.
Proof.
  intros Ha Hb.
  destruct (round_half_even_bounds (a * 100) (b * 100) (x * inject_Z 100))
    as [Hlo Hhi].
  - rewrite inject_Z_mult. apply Qmult_le_compat_r; done.
  - rewrite inject_Z_mult. apply Qmult_le_compat_r; done.
  - unfold round2, Qle. cbn. lia.
Qed.

(** [a + (b - a) * u] for a draw [u] in [0, 1) lies between [a] and [b]. *)
Lemma uniform_bounds (a b u : Q) :
  (a <= b)%Q -> (0 <= u)%Q -> (u < 1)%Q ->
  (a <= a + (b - a) * u)%Q /\ (a + (b - a) * u <= b)%Q.
Proof.
  intros Hab Hu0 Hu1. split; nra.
Qed.

Section Builtin_fetch.

Import StockScanner.

Variable P : Platform.

(** The loop returns the list built so far followed by one record per
    stock, in the order of the stocks; it reads no clock and prints
    nothing. *)
Lemma fetch_loop_returns (current_time : datetime) (stocks : list Stock)
    (stock_data : list Quote) (e : Env) :
  exists new e',
    fetch_loop P current_time stocks stock_data e
      = Returned (stock_data ++ new) e' /\
    symbol <$> new = stock_symbol <$> stocks /\
    Forall (fun r => scan_time r = strftime P current_time) new /\
    clock_reads e' = clock_reads e /\
    stdout e' = stdout e /\
    (fair P -> Forall in_range new).
Proof.
  revert stock_data e.
  induction stocks as [|stock stocks IH]; intros stock_data e.
  - exists [], e. rewrite app_nil_r. by repeat split.
  - cbn [fetch_loop]. unfold mbind, Eff_bind, uniform, randint.
    match goal with
    | |- context [fetch_loop P current_time stocks (stock_data ++ [?r]) ?e1] =>
        destruct (IH (stock_data ++ [r]) e1)
          as (new & e' & Hrun & Hsym & Htime & Hclock & Hout & Hrange);
        exists (r :: new), e'
    end.
    rewrite Hrun, <- app_assoc.
    split; [done|]. split; [by rewrite !fmap_cons, Hsym|].
    split; [by constructor|]. split; [done|]. split; [done|].
    intros Hfair. constructor; [|by apply Hrange].
    destruct Hfair as [Hunit Hbelow]. unfold in_range. cbn.
    destruct (Hunit (random_draws e)) as [Hp0 Hp1].
    destruct (Hunit (S (random_draws e))) as [Hc0 Hc1].
    destruct (uniform_bounds (inject_Z 100) (inject_Z 3000)
                (random P (random_draws e))) as [Hplo Hphi]; [done..|].
    destruct (uniform_bounds (inject_Z (-5)) (inject_Z 5)
                (random P (S (random_draws e)))) as [Hclo Hchi]; [done..|].
    destruct (round2_bounds 100 3000 _ Hplo Hphi) as [? ?].
    destruct (round2_bounds (-5) 5 _ Hclo Hchi) as [? ?].
    pose proof (Hbelow (S (S (random_draws e))) (10000000 + 1 - 100000)).
    repeat split; [done..|lia].
Qed.

(** [_fetch_stock_data] returns one record per sample stock. *)
Lemma fetch_stock_data_returns (e : Env) :
  exists l e',
    _fetch_stock_data P e = Returned l e' /\
    symbol <$> l = sample_symbols /\
    Forall (fun r => scan_time r = strftime P (clock P (clock_reads e))) l /\
    stdout e' = stdout e /\
    (fair P -> Forall in_range l).
Proof.
  unfold _fetch_stock_data, mbind, Eff_bind, now.
  match goal with
  | |- context [fetch_loop P ?t ?s [] ?e1] =>
      destruct (fetch_loop_returns t s [] e1)
        as (l & e' & Hrun & Hsym & Htime & _ & Hout & Hrange)
  end.
  exists l, e'. rewrite Hrun. by repeat split.
Qed.

(** C9. The records that one call of [_fetch_stock_data] returns all
    carry the same [scan_time]: the rendering of the one clock reading
    that the call makes. *)
Theorem fetched_records_share_scan_time (e : Env) :
  exists l e',
    _fetch_stock_data P e = Returned l e' /\
    Forall (fun r => scan_time r = strftime P (clock P (clock_reads e))) l /\
    (forall r1 r2, r1 ∈ l -> r2 ∈ l -> scan_time r1 = scan_time r2).
Proof.
  destruct (fetch_stock_data_returns e)
    as (l & e' & Hrun & _ & Htime & _).
  exists l, e'. split; [done|]. split; [done|].
  rewrite Forall_forall in Htime.
  intros r1 r2 H1 H2. by rewrite (Htime r1 H1), (Htime r2 H2).
Qed.

End Builtin_fetch.

(** C10. With a generator that keeps its contract, [_fetch_stock_data]
    returns a list of exactly 20 records, so not an empty one; each has a
    price in [100, 3000], a [change_percent] in [-5, 5], a positive volume
    and the symbol of its sample stock, and the 20 sample symbols are
    distinct.  So a cycle of [_perform_scan] on this data source never takes
    the branch for an empty result: it prints its start line and its success
    line, not "No data received from scan", and counts one more scan. *)
Theorem builtin_fetch_has_data (P : Platform) :
  fair P ->
  length sample_symbols = 20%nat /\
  NoDup sample_symbols /\
  (forall e, exists l e',
     StockScanner._fetch_stock_data P e = Returned l e' /\
     l <> [] /\
     length l = 20%nat /\
     symbol <$> l = sample_symbols /\
     Forall (fun r => in_range r /\ symbol r ∈ sample_symbols) l) /\
  (forall w, exists w',
     StockScanner._perform_scan P w = Returned tt w' /\
     stdout (StockScanner.env w')
       = stdout (StockScanner.env w) ++
           ["Starting scan at " +:+ str_datetime P (start_time P w);
            "Scan completed successfully. Found 20 stocks."] /\
     ("No data received from scan"
        ∉ drop (length (stdout (StockScanner.env w)))
               (stdout (StockScanner.env w'))) /\
     StockScanner.total_scans (StockScanner.self w')
       = StockScanner.total_scans (StockScanner.self w) + 1).
Proof.
  intros Hfair.
  assert (Hfetch : forall e, exists l e',
     StockScanner._fetch_stock_data P e = Returned l e' /\
     l <> [] /\
     length l = 20%nat /\
     symbol <$> l = sample_symbols /\
     Forall (fun r => in_range r /\ symbol r ∈ sample_symbols) l /\
     stdout e' = stdout e).
  { intros e.
    destruct (fetch_stock_data_returns P e)
      as (l & e' & Hrun & Hsym & _ & Hout & Hrange).
    assert (Hlen : length l = 20%nat).
    { rewrite <- (length_fmap symbol), Hsym. done. }
    exists l, e'. repeat split; [done| |done..| |done].
    - intros ->. done.
    - specialize (Hrange Hfair).
      rewrite Forall_forall in Hrange. apply Forall_forall.
      intros r Hr. split; [by apply Hrange|].
      rewrite <- Hsym. by apply list_elem_of_fmap_2. }
  split; [done|]. split.
  { apply (bool_decide_unpack _). vm_compute. exact I. }
  split.
  { intros e. destruct (Hfetch e) as (l & e' & ? & ? & ? & ? & ? & _).
    exists l, e'. repeat split; assumption. }
  intros w.
  destruct (Hfetch (env_at_fetch P (StockScanner.env w)))
    as (l & e' & Hrun & Hne & Hlen & _ & _ & Hout).
  eexists.
  unfold StockScanner._perform_scan, StockScanner._perform_scan_with, try_except.
  rewrite (scan_body_data P _ w l e' Hrun Hne).
  split; [reflexivity|]. cbn [StockScanner.env StockScanner.self stdout
                              StockScanner.total_scans].
  rewrite Hout, Hlen. cbn [env_at_fetch stdout]. rewrite <- app_assoc.
  split; [done|]. split; [|done].
  rewrite drop_app_length. cbn.
  intros Hin. apply list_elem_of_In in Hin.
  destruct Hin as [Heq|[Heq|[]]]; discriminate.
Qed.

(** * The properties at concrete inputs *)

(** The scenario of the specification: a price range of (0, 100) keeps only
    AAA; the statistics of the two records count one gainer and one loser,
    with AAA on top and BBB at the bottom. *)
Example scenario_filter_by_price :
  pd.rows <$> DataManager.get_filtered_data "All" "All"
                (inject_Z 0, inject_Z 100) scenario_store
  = Some [quote_AAA].
Proof. vm_compute. reflexivity. Qed.

Example scenario_statistics :
  let stats := DataManager.get_statistics scenario_store in
  DataManager.stat_total_stocks stats = 2%nat /\
  DataManager.stat_gainers stats = 1%nat /\
  DataManager.stat_losers stats = 1%nat /\
  DataManager.top_gainer stats = Some quote_AAA /\
  DataManager.top_loser stats = Some quote_BBB.
Proof. vm_compute. repeat split. Qed.

(** Equal values: the first one is picked, for the maximum and the minimum. *)
Example ties_pick_the_first :
  let stats :=
    DataManager.get_statistics
      (DataManager.store_scan_data [quote_BBB; quote_AAA; quote_AAA; quote_BBB]
         0 DataManager.init) in
  pd.idxmax [(0, inject_Z 2); (1, inject_Z 5); (2, inject_Z 5)]%nat = Some 1%nat /\
  pd.idxmin [(0, inject_Z 2); (1, inject_Z 2); (2, inject_Z 5)]%nat = Some 0%nat /\
  DataManager.top_gainer stats = Some quote_AAA /\
  DataManager.top_loser stats = Some quote_BBB.
Proof. vm_compute. repeat split. Qed.

(** After 103 appends on a fresh store the log holds the last 100 of them,
    numbers 3 to 102, oldest first. *)
Lemma history_bounded_after_103 :
  let self' := add_all (numbered_infos 103) (after_calls []) in
  length (DataManager.get_scan_history self') = 100%nat /\
  DataManager.get_scan_history self' = drop 3 (numbered_infos 103).
Proof.
  destruct (history_bounded [] (numbered_infos 103)) as (_ & _ & _ & Hlong).
  apply Hlong. vm_compute. repeat constructor.
Defined.

(** The full price range on the scenario gives back both records. *)
Lemma filtered_data_all_scenario :
  DataManager.get_latest_scan_data scenario_store
    = Some (pd.DataFrame_of [quote_AAA; quote_BBB]) /\
  pd.DataFrame_of [quote_AAA; quote_BBB] <> [] /\
  Forall (fun r => (inject_Z 0 <= price r)%Q /\ (price r <= inject_Z 10000)%Q)
    (pd.rows (pd.DataFrame_of [quote_AAA; quote_BBB])) /\
  exists out,
    DataManager.get_filtered_data "All" "All"
      (inject_Z 0, inject_Z 10000) scenario_store = Some out /\
    pd.rows out ≡ₚ pd.rows (pd.DataFrame_of [quote_AAA; quote_BBB]) /\
    out = pd.DataFrame_of [quote_AAA; quote_BBB].
Proof.
  assert (H1 : DataManager.get_latest_scan_data scenario_store
               = Some (pd.DataFrame_of [quote_AAA; quote_BBB]))
    by reflexivity.
  assert (H2 : pd.DataFrame_of [quote_AAA; quote_BBB] <> [])
    by discriminate.
  assert (H3 : Forall
            (fun r => (inject_Z 0 <= price r)%Q /\ (price r <= inject_Z 10000)%Q)
            (pd.rows (pd.DataFrame_of [quote_AAA; quote_BBB]))).
  { repeat constructor; discriminate. }
  split; [exact H1|]. split; [exact H2|]. split; [exact H3|].
  exact (filtered_data_all (inject_Z 0) (inject_Z 10000) scenario_store
           (pd.DataFrame_of [quote_AAA; quote_BBB]) H1 H2 H3).
Defined.

(** The statistics of a fresh store, and the extremes of the scenario. *)
Lemma statistics_extremes_scenario :
  DataManager.get_statistics DataManager.init = DataManager.no_statistics /\
  exists k g,
    DataManager.top_gainer (DataManager.get_statistics scenario_store) = Some g /\
    [quote_AAA; quote_BBB] !! k = Some g.
Proof.
  destruct statistics_extremes as [Hnone Hsome]. split.
  - apply Hnone. left. reflexivity.
  - destruct (Hsome DataManager.init [quote_AAA; quote_BBB] 63000000000000000)
      as [(k & g & Htop & Hk & _) _]; [discriminate|].
    exists k, g. split; [exact Htop|exact Hk].
Defined.

(** A cycle on the failing data source. *)
Lemma failed_fetch_on_fresh_world :
  failing_fetch (env_at_fetch steady_platform (StockScanner.env fresh_world))
    = Raised {| str := "connection refused" |}
        (env_at_fetch steady_platform (StockScanner.env fresh_world)) /\
  exists w' info,
    StockScanner._perform_scan_with steady_platform failing_fetch fresh_world
      = Returned tt w' /\
    status info = "Error: connection refused" /\
    DataManager.get_scan_history (StockScanner.data_manager w') = [info] /\
    StockScanner.total_scans (StockScanner.self w') = 0 /\
    DataManager.get_latest_scan_data (StockScanner.data_manager w') = None.
Proof.
  split; [reflexivity|].
  destruct (failed_fetch_logs_error steady_platform failing_fetch fresh_world
              {| str := "connection refused" |}
              (env_at_fetch steady_platform (StockScanner.env fresh_world))
              eq_refl)
    as (w' & info & Hrun & _ & Hstatus & _ & _ & _ & Hlog & _ & Hscans & _ & _
        & _ & _ & Hdata).
  exists w', info. split; [exact Hrun|]. split; [exact Hstatus|].
  split; [apply Hlog; reflexivity|]. split; [exact Hscans|exact Hdata].
Defined.

(** A cycle on the data source of the scenario. *)
Lemma successful_fetch_on_fresh_world :
  scenario_fetch (env_at_fetch steady_platform (StockScanner.env fresh_world))
    = Returned [quote_AAA; quote_BBB]
        (env_at_fetch steady_platform (StockScanner.env fresh_world)) /\
  [quote_AAA; quote_BBB] <> [] /\
  exists w' info,
    StockScanner._perform_scan_with steady_platform scenario_fetch fresh_world
      = Returned tt w' /\
    pd.rows <$>
      DataManager.get_latest_scan_data (StockScanner.data_manager w')
      = Some [quote_AAA; quote_BBB] /\
    StockScanner.total_scans (StockScanner.self w') = 0 + 1 /\
    status info = "Success" /\
    total_stocks info = 2%nat /\
    DataManager.get_scan_history (StockScanner.data_manager w') = [info].
Proof.
  split; [reflexivity|]. split; [discriminate|].
  destruct (successful_fetch_is_stored steady_platform scenario_fetch
              fresh_world [quote_AAA; quote_BBB]
              (env_at_fetch steady_platform (StockScanner.env fresh_world))
              eq_refl)
    as (w' & info & Hrun & _ & _ & Hrows & _ & _ & Hscans & _ & _ & Hstatus
        & Htotal & _ & _ & _ & Hlog); [discriminate|].
  exists w', info. split; [exact Hrun|]. split; [exact Hrows|].
  split; [exact Hscans|]. split; [exact Hstatus|]. split; [exact Htotal|].
  apply Hlog. reflexivity.
Defined.

(** C8 as it is stated fails on a data source that returns an empty list:
    the cycle returns normally and the log is as empty as before, which is
    not the log after any one append. *)
Lemma no_summary_for_empty_fetch :
  empty_fetch (env_at_fetch steady_platform (StockScanner.env fresh_world))
    = Returned [] (env_at_fetch steady_platform (StockScanner.env fresh_world)) /\
  DataManager.get_scan_history
    (StockScanner.data_manager
       (state_of (StockScanner._perform_scan_with steady_platform empty_fetch
                    fresh_world))) = [] /\
  ~ exists info,
      DataManager.get_scan_history
        (StockScanner.data_manager
           (state_of (StockScanner._perform_scan_with steady_platform
                        empty_fetch fresh_world)))
      = DataManager.get_scan_history
          (DataManager.add_scan_history info
             (StockScanner.data_manager fresh_world)).
Proof.
  assert (Hfetch :
    empty_fetch (env_at_fetch steady_platform (StockScanner.env fresh_world))
    = Returned [] (env_at_fetch steady_platform (StockScanner.env fresh_world)))
    by reflexivity.
  unfold StockScanner._perform_scan_with, try_except.
  rewrite (scan_body_no_data steady_platform empty_fetch fresh_world _ Hfetch).
  cbn [state_of StockScanner.data_manager].
  split; [exact Hfetch|]. split; [reflexivity|].
  intros [info Hinfo]. discriminate Hinfo.
Qed.

(** The steady generator keeps its contract, and the built-in data source
    on it returns its 20 records. *)
Lemma builtin_fetch_on_steady_platform :
  fair steady_platform /\
  exists l e',
    StockScanner._fetch_stock_data steady_platform fresh_env = Returned l e' /\
    length l = 20%nat /\
    symbol <$> l = sample_symbols.
Proof.
  assert (Hfair : fair steady_platform).
  { split.
    - intros n. cbn. unfold Qle, Qlt. cbn. lia.
    - intros n k Hk. cbn. lia. }
  split; [exact Hfair|].
  destruct (builtin_fetch_has_data steady_platform Hfair)
    as (_ & _ & Hfetch & _).
  destruct (Hfetch fresh_env) as (l & e' & Hrun & _ & Hlen & Hsym & _).
  exists l, e'. split; [exact Hrun|]. split; [exact Hlen|exact Hsym].
Defined.

(** * Further properties of the store *)

(** ** [clear_data] and the timestamps *)

(** X1. On a store made by [DataManager()] and changed by any sequence of
    calls, [clear_data] gives back the state of a new [DataManager()]; on
    any store whatever it leaves no frame, no log and no timestamps, so
    that the statistics are the empty ones and [get_filtered_data] returns
    [None]. *)
Theorem clear_data_resets (cs : list Call) (self : DataManager.t)
    (mc sec : string) (pr : Q * Q) :
  DataManager.clear_data (after_calls cs) = DataManager.init /\
  DataManager.get_latest_scan_data (DataManager.clear_data self) = None /\
  DataManager.get_scan_history (DataManager.clear_data self) = [] /\
  DataManager.get_last_scan_time (DataManager.clear_data self) = None /\
  DataManager.get_next_scan_time (DataManager.clear_data self) = None /\
  DataManager.get_statistics (DataManager.clear_data self)
    = DataManager.no_statistics /\
  DataManager.get_filtered_data mc sec pr (DataManager.clear_data self) = None.
Proof.
  destruct (after_calls_invariant cs) as [Hmax _].
  split; [|by repeat split].
  unfold DataManager.clear_data, DataManager.init. by rewrite Hmax.
Qed.

(** X2. On a store made by [DataManager()] and changed by any sequence of
    calls the two timestamps and the frame go together: either there is no
    last scan time, no next scan time and no frame, or the next scan time is
    the last one plus 15 minutes and the frame is the one of some list. *)
Theorem timestamps_in_step (cs : list Call) :
  match DataManager.get_last_scan_time (after_calls cs) with
  | None =>
      DataManager.get_next_scan_time (after_calls cs) = None /\
      DataManager.get_latest_scan_data (after_calls cs) = None
  | Some t =>
      DataManager.get_next_scan_time (after_calls cs) = Some (t + 900000000) /\
      exists l,
        DataManager.get_latest_scan_data (after_calls cs)
        = Some (pd.DataFrame_of l)
  end.
Proof.
  unfold after_calls.
  induction cs as [|c cs IH] using rev_ind; [done|].
  rewrite foldl_snoc.
  destruct c as [l t|info|]; cbn [call].
  - cbn. split; [done|]. by exists l.
  - exact IH.
  - done.
Qed.

(** ** The log under other caps *)

(** X3. With [max_history_items = 0] the condition of [add_scan_history]
    holds at every append and the slice [scan_history[-0:]] is the whole
    list: nothing is ever evicted and the log grows with every append. *)
Theorem history_unbounded_at_cap_zero (infos : list ScanInfo)
    (self : DataManager.t) :
  DataManager.max_history_items self = 0 ->
  DataManager.get_scan_history (add_all infos self)
  = DataManager.get_scan_history self ++ infos.
Proof.
  intros Hcap. unfold DataManager.get_scan_history.
  induction infos as [|x infos IH] using rev_ind.
  - cbn. by rewrite app_nil_r.
  - pose proof (max_history_items_add_all infos self) as Hmax.
    unfold add_all in *. rewrite foldl_snoc. cbn [DataManager.add_scan_history
      DataManager.scan_history]. rewrite Hmax, Hcap, IH.
    rewrite decide_True by (rewrite !length_app; cbn; lia).
    cbn. by rewrite app_assoc.
Qed.

Lemma history_unbounded_at_cap_zero_five :
  DataManager.max_history_items (store_with_cap 0) = 0 /\
  DataManager.get_scan_history (add_all (numbered_infos 5) (store_with_cap 0))
  = numbered_infos 5.
Proof.
  split; [reflexivity|].
  exact (history_unbounded_at_cap_zero (numbered_infos 5) (store_with_cap 0)
           eq_refl).
Defined.

(** X4. With any positive [max_history_items], and whatever the length of
    the log before, the log after one or more appends is the last
    [max_history_items] entries of the old log followed by the appended
    ones; it has at most [max_history_items] entries. *)
Theorem history_cut_back_any_cap (infos : list ScanInfo)
    (self : DataManager.t) :
  0 < DataManager.max_history_items self ->
  infos <> [] ->
  DataManager.get_scan_history (add_all infos self)
  = keep_last (Z.to_nat (DataManager.max_history_items self))
      (DataManager.get_scan_history self ++ infos) /\
  Z.of_nat (length (DataManager.get_scan_history (add_all infos self)))
    <= DataManager.max_history_items self.
Proof.
  intros Hcap Hne.
  assert (Hhist : DataManager.get_scan_history (add_all infos self)
    = keep_last (Z.to_nat (DataManager.max_history_items self))
        (DataManager.get_scan_history self ++ infos)).
  { unfold DataManager.get_scan_history.
    induction infos as [|x infos IH] using rev_ind; [done|].
    pose proof (max_history_items_add_all infos self) as Hmax.
    unfold add_all in *. rewrite foldl_snoc.
    rewrite scan_history_add by (rewrite Hmax; lia). rewrite Hmax.
    destruct (decide (infos = [])) as [->|Hinfos]; [done|].
    rewrite (IH Hinfos), keep_last_snoc by lia.
    by rewrite app_assoc. }
  split; [exact Hhist|].
  rewrite Hhist, length_keep_last. lia.
Qed.

Lemma history_cut_back_cap_three :
  0 < DataManager.max_history_items (store_with_cap 3) /\
  numbered_infos 5 <> [] /\
  DataManager.get_scan_history (add_all (numbered_infos 5) (store_with_cap 3))
  = drop 2 (numbered_infos 5).
Proof.
  split; [reflexivity|]. split; [discriminate|].
  destruct (history_cut_back_any_cap (numbered_infos 5) (store_with_cap 3))
    as [Hhist _]; [reflexivity|discriminate|].
  exact Hhist.
Defined.

(** ** The filters, exactly *)

Lemma rows_mask (P : Quote -> Prop) `{!forall r, Decision (P r)}
    (df : list (nat * Quote)) :
  pd.rows (pd.mask P df) = filter P (pd.rows df).
Proof.
  unfold pd.rows, pd.mask.
  induction df as [|ir df IH]; [done|].
  rewrite fmap_cons, !filter_cons. cbn.
  destruct (decide (P ir.2)); cbn; by rewrite IH.
Qed.

Lemma length_mask (P : Quote -> Prop) `{!forall r, Decision (P r)}
    (df : list (nat * Quote)) :
  length (pd.mask P df) = length (filter P (pd.rows df)).
Proof. rewrite <- rows_mask. unfold pd.rows. by rewrite length_fmap. Qed.

Lemma filter_sublist_impl {A} (P1 P2 : A -> Prop)
    `{!forall x, Decision (P1 x), !forall x, Decision (P2 x)} (l : list A) :
  (forall x, P1 x -> P2 x) -> filter P1 l `sublist_of` filter P2 l.
Proof.
  intros Himpl. rewrite <- (list_filter_filter_l P1 P2) by done.
  apply sublist_filter.
Qed.

(** On a frame with rows, [get_filtered_data] keeps the rows that pass. *)
Lemma get_filtered_data_filter (mc sec : string) (pr : Q * Q)
    (self : DataManager.t) (data : list (nat * Quote)) :
  DataManager.get_latest_scan_data self = Some data ->
  data <> [] ->
  DataManager.get_filtered_data mc sec pr self
  = Some (pd.mask (passes mc sec pr) data).
Proof.
  intros Hdata Hne. unfold DataManager.get_filtered_data. rewrite Hdata.
  destruct data as [|ir data]; [done|]. cbn [pd.empty].
  f_equal. unfold pd.mask.
  repeat case_decide; rewrite ?list_filter_filter;
    apply list_filter_iff; intros [i r]; cbn;
    unfold passes, DataManager.price_in, DataManager.sector_is,
      DataManager.market_cap_is;
    destruct (decide (mc = "All")); destruct (decide (sec = "All"));
    tauto.
Qed.

(** X5. When the store holds a frame with at least one row, the rows that
    [get_filtered_data] returns are exactly the rows of the frame that
    satisfy the filters, in the order of the frame: none that passes is
    left out. *)
Theorem filtered_data_complete (mc sec : string) (pr : Q * Q)
    (self : DataManager.t) (data : list (nat * Quote)) :
  DataManager.get_latest_scan_data self = Some data ->
  data <> [] ->
  exists out,
    DataManager.get_filtered_data mc sec pr self = Some out /\
    pd.rows out = filter (passes mc sec pr) (pd.rows data) /\
    (forall r, r ∈ pd.rows out <-> r ∈ pd.rows data /\ passes mc sec pr r).
Proof.
  intros Hdata Hne. eexists. split; [by apply get_filtered_data_filter|].
  rewrite rows_mask. split; [done|].
  intros r. rewrite list_elem_of_filter. tauto.
Qed.

Lemma filtered_data_complete_scenario :
  DataManager.get_latest_scan_data scenario_store
    = Some (pd.DataFrame_of [quote_AAA; quote_BBB]) /\
  pd.DataFrame_of [quote_AAA; quote_BBB] <> [] /\
  exists out,
    DataManager.get_filtered_data "Large Cap" "All"
      DataManager.default_price_range scenario_store = Some out /\
    pd.rows out = [quote_BBB].
Proof.
  split; [reflexivity|]. split; [discriminate|].
  destruct (filtered_data_complete "Large Cap" "All"
              DataManager.default_price_range scenario_store
              (pd.DataFrame_of [quote_AAA; quote_BBB]) eq_refl)
    as (out & Hout & Hrows & _); [discriminate|].
  exists out. split; [exact Hout|]. rewrite Hrows. vm_compute. reflexivity.
Defined.

(** X6. A price range whose lower end lies above its upper end matches no
    row: on a frame with rows [get_filtered_data] then returns an empty
    frame, not [None]. *)
Theorem inverted_price_range_is_empty (mc sec : string) (lo hi : Q)
    (self : DataManager.t) (data : list (nat * Quote)) :
  DataManager.get_latest_scan_data self = Some data ->
  data <> [] ->
  (hi < lo)%Q ->
  DataManager.get_filtered_data mc sec (lo, hi) self = Some [].
Proof.
  intros Hdata Hne Hinv.
  rewrite (get_filtered_data_filter mc sec (lo, hi) self data Hdata Hne).
  f_equal. unfold pd.mask. clear Hdata Hne.
  induction data as [|ir data IH]; [done|].
  rewrite filter_cons_False; [exact IH|].
  unfold passes. cbn. intros (_ & _ & Hlo & Hhi).
  apply (Qlt_irrefl hi). eapply Qlt_le_trans; [exact Hinv|].
  by eapply Qle_trans.
Qed.

Lemma inverted_price_range_scenario :
  DataManager.get_latest_scan_data scenario_store
    = Some (pd.DataFrame_of [quote_AAA; quote_BBB]) /\
  pd.DataFrame_of [quote_AAA; quote_BBB] <> [] /\
  (inject_Z 100 < inject_Z 200)%Q /\
  DataManager.get_filtered_data "All" "All" (inject_Z 200, inject_Z 100)
    scenario_store = Some [].
Proof.
  split; [reflexivity|]. split; [discriminate|]. split; [reflexivity|].
  apply (inverted_price_range_is_empty "All" "All" (inject_Z 200) (inject_Z 100)
           scenario_store (pd.DataFrame_of [quote_AAA; quote_BBB]));
    [reflexivity|discriminate|reflexivity].
Defined.

(** X7. Filters only take rows away: the frame returned for a market cap,
    a sector and a price range is a subsequence of the frame returned for
    "All", "All" and any price range that contains the first one. *)
Theorem narrower_filters_give_fewer_rows (mc sec : string) (lo hi lo' hi' : Q)
    (self : DataManager.t) (data : list (nat * Quote)) :
  DataManager.get_latest_scan_data self = Some data ->
  data <> [] ->
  (lo' <= lo)%Q -> (hi <= hi')%Q ->
  exists out out',
    DataManager.get_filtered_data mc sec (lo, hi) self = Some out /\
    DataManager.get_filtered_data "All" "All" (lo', hi') self = Some out' /\
    out `sublist_of` out'.
Proof.
  intros Hdata Hne Hlo Hhi.
  eexists _, _. split; [by apply get_filtered_data_filter|].
  split; [by apply get_filtered_data_filter|].
  unfold pd.mask. apply filter_sublist_impl.
  intros [i r]. unfold passes. cbn. intros (_ & _ & Hl & Hh).
  split; [by left|]. split; [by left|].
  split; by eapply Qle_trans.
Qed.

Lemma narrower_filters_scenario :
  DataManager.get_latest_scan_data scenario_store
    = Some (pd.DataFrame_of [quote_AAA; quote_BBB]) /\
  pd.DataFrame_of [quote_AAA; quote_BBB] <> [] /\
  (inject_Z 0 <= inject_Z 10)%Q /\ (inject_Z 100 <= inject_Z 10000)%Q /\
  exists out out',
    DataManager.get_filtered_data "Small Cap" "IT" (inject_Z 10, inject_Z 100)
      scenario_store = Some out /\
    DataManager.get_filtered_data "All" "All" (inject_Z 0, inject_Z 10000)
      scenario_store = Some out' /\
    out `sublist_of` out'.
Proof.
  split; [reflexivity|]. split; [discriminate|].
  split; [discriminate|]. split; [discriminate|].
  apply (narrower_filters_give_fewer_rows "Small Cap" "IT"
           (inject_Z 10) (inject_Z 100) (inject_Z 0) (inject_Z 10000)
           scenario_store (pd.DataFrame_of [quote_AAA; quote_BBB]));
    [reflexivity|discriminate|discriminate|discriminate].
Defined.

(** ** The statistics, further *)

Lemma DataFrame_of_nonempty (l : list Quote) :
  l <> [] -> pd.DataFrame_of l <> [].
Proof.
  intros Hne Hnil. apply (f_equal length) in Hnil.
  rewrite length_DataFrame_of in Hnil. by destruct l.
Qed.

(** The statistics of the frame of a list with records, field by field. *)
Lemma get_statistics_store (l : list Quote) (t : datetime)
    (self : DataManager.t) :
  l <> [] ->
  DataManager.get_statistics (DataManager.store_scan_data l t self)
  = {| DataManager.stat_total_stocks := length l;
       DataManager.stat_gainers := length (filter DataManager.is_gainer l);
       DataManager.stat_losers := length (filter DataManager.is_loser l);
       DataManager.avg_volume := pd.mean_volume (pd.DataFrame_of l);
       DataManager.top_gainer :=
         pd.idxmax (pd.column change_percent (pd.DataFrame_of l))
           ≫= pd.loc (pd.DataFrame_of l);
       DataManager.top_loser :=
         pd.idxmin (pd.column change_percent (pd.DataFrame_of l))
           ≫= pd.loc (pd.DataFrame_of l) |}.
Proof.
  intros Hne. pose proof (DataFrame_of_nonempty l Hne) as Hdf.
  unfold DataManager.get_statistics. cbn [DataManager.get_latest_scan_data
    DataManager.store_scan_data DataManager.current_scan_data].
  destruct (pd.DataFrame_of l) as [|ir df] eqn:Heq; [done|].
  cbn [pd.empty]. rewrite !decide_True by (cbn; lia).
  rewrite <- Heq, !length_mask, rows_DataFrame_of, length_DataFrame_of.
  done.
Qed.

Lemma filter_none {A} (P : A -> Prop) `{!forall x, Decision (P x)} (l : list A) :
  (forall x, x ∈ l -> ~ P x) -> filter P l = [].
Proof.
  induction l as [|x l IH]; intros Hnone; [done|].
  rewrite filter_cons_False by (apply Hnone; left).
  apply IH. intros y Hy. apply Hnone. by right.
Qed.

(** X8. On the frame of a list with records, the top loser's
    [change_percent] is at most the top gainer's; the count of gainers is
    zero exactly when the top gainer did not gain, and the count of losers
    is zero exactly when the top loser did not lose. *)
Theorem top_gainer_and_loser (l : list Quote) (t : datetime)
    (self : DataManager.t) :
  l <> [] ->
  let stats :=
    DataManager.get_statistics (DataManager.store_scan_data l t self) in
  exists g b,
    DataManager.top_gainer stats = Some g /\
    DataManager.top_loser stats = Some b /\
    g ∈ l /\ b ∈ l /\
    (change_percent b <= change_percent g)%Q /\
    (DataManager.stat_gainers stats = 0%nat <-> (change_percent g <= 0)%Q) /\
    (DataManager.stat_losers stats = 0%nat <-> (0 <= change_percent b)%Q).
Proof.
  intros Hne stats. unfold stats. rewrite (get_statistics_store l t self Hne).
  cbn [DataManager.top_gainer DataManager.top_loser DataManager.stat_gainers
       DataManager.stat_losers].
  destruct (first_best_row pd.larger l larger_irrefl larger_pass larger_keep Hne)
    as (kg & g & Hg & Hkg & Hmax & _).
  destruct (first_best_row pd.smaller l
              smaller_irrefl smaller_pass smaller_keep Hne)
    as (kb & b & Hb & Hkb & Hmin & _).
  assert (Hgl : g ∈ l) by (by eapply list_elem_of_lookup_2).
  assert (Hbl : b ∈ l) by (by eapply list_elem_of_lookup_2).
  exists g, b. split; [exact Hg|]. split; [exact Hb|].
  split; [done|]. split; [done|]. split; [|split].
  - apply Qnot_lt_le. by eapply Hmax.
  - split.
    + intros Hzero%nil_length_inv. apply Qnot_lt_le. intros Hpos.
      by eapply (filter_nil_not_elem_of DataManager.is_gainer l g).
    + intros Hle. rewrite filter_none; [done|].
      intros r Hr%list_elem_of_lookup_1. destruct Hr as [j Hj].
      unfold DataManager.is_gainer. apply Qle_not_lt.
      eapply Qle_trans; [|exact Hle]. apply Qnot_lt_le. by eapply Hmax.
  - split.
    + intros Hzero%nil_length_inv. apply Qnot_lt_le. intros Hneg.
      by eapply (filter_nil_not_elem_of DataManager.is_loser l b).
    + intros Hle. rewrite filter_none; [done|].
      intros r Hr%list_elem_of_lookup_1. destruct Hr as [j Hj].
      unfold DataManager.is_loser. apply Qle_not_lt.
      eapply Qle_trans; [exact Hle|]. apply Qnot_lt_le. by eapply Hmin.
Qed.

Lemma top_gainer_and_loser_scenario :
  [quote_AAA; quote_BBB] <> [] /\
  exists g b,
    DataManager.top_gainer (DataManager.get_statistics scenario_store) = Some g /\
    DataManager.top_loser (DataManager.get_statistics scenario_store) = Some b /\
    (change_percent b <= change_percent g)%Q.
Proof.
  split; [discriminate|].
  destruct (top_gainer_and_loser [quote_AAA; quote_BBB] 63000000000000000
              DataManager.init)
    as (g & b & Hg & Hb & _ & _ & Hle & _); [discriminate|].
  exists g, b. split; [exact Hg|]. split; [exact Hb|exact Hle].
Defined.




(** * Further properties of the scanner *)

(** ** Runs of cycles *)

(** What one cycle leaves of the scanner and the store, by the outcome of
    its fetch step. *)
Lemma cycle_cases (P : Platform) (fetch : Eff Env (list Quote))
    (w : StockScanner.World) :
  let w' := state_of (StockScanner._perform_scan_with P fetch w) in
  (exists x e,
     fetch (env_at_fetch P (StockScanner.env w)) = Raised x e /\
     StockScanner.self w' = StockScanner.self w /\
     StockScanner.data_manager w'
       = DataManager.add_scan_history (error_info P e x)
           (StockScanner.data_manager w)) \/
  (exists e,
     fetch (env_at_fetch P (StockScanner.env w)) = Returned [] e /\
     StockScanner.self w' = StockScanner.self w /\
     StockScanner.data_manager w' = StockScanner.data_manager w) \/
  (exists l e,
     l <> [] /\
     fetch (env_at_fetch P (StockScanner.env w)) = Returned l e /\
     StockScanner.self w'
       = {| StockScanner.is_running :=
              StockScanner.is_running (StockScanner.self w);
            StockScanner.total_scans :=
              StockScanner.total_scans (StockScanner.self w) + 1;
            StockScanner.last_scan_time := Some (start_time P w);
            StockScanner.next_scan_time :=
              Some (start_time P w
                    + timedelta_minutes
                        (StockScanner.scan_interval_minutes
                           (StockScanner.self w)));
            StockScanner.scan_interval_minutes :=
              StockScanner.scan_interval_minutes (StockScanner.self w) |} /\
     StockScanner.data_manager w'
       = DataManager.add_scan_history (success_info P w l)
           (DataManager.store_scan_data l (start_time P w)
              (StockScanner.data_manager w))).
Proof.
  intros w'. unfold w', StockScanner._perform_scan_with, try_except.
  destruct (fetch (env_at_fetch P (StockScanner.env w)))
    as [[|r l] e|x e] eqn:Hfetch.
  - right; left. exists e.
    rewrite (scan_body_no_data P fetch w e Hfetch). by repeat split.
  - right; right. exists (r :: l), e.
    rewrite (scan_body_data P fetch w (r :: l) e Hfetch) by done.
    by repeat split.
  - left. exists x, e.
    rewrite (scan_body_raised P fetch w x e Hfetch), scan_handler_returns.
    by repeat split.
Qed.

(** A cycle always returns. *)
Lemma perform_scan_returns (P : Platform) (fetch : Eff Env (list Quote))
    (w : StockScanner.World) :
  StockScanner._perform_scan_with P fetch w
  = Returned tt (state_of (StockScanner._perform_scan_with P fetch w)).
Proof.
  unfold StockScanner._perform_scan_with, try_except.
  destruct (fetch (env_at_fetch P (StockScanner.env w)))
    as [[|r l] e|x e] eqn:Hfetch.
  - by rewrite (scan_body_no_data P fetch w e Hfetch).
  - by rewrite (scan_body_data P fetch w (r :: l) e Hfetch).
  - by rewrite (scan_body_raised P fetch w x e Hfetch), scan_handler_returns.
Qed.

Lemma success_info_entry (P : Platform) (w : StockScanner.World)
    (l : list Quote) :
  l <> [] -> scanner_entry (success_info P w l).
Proof.
  intros Hne. left. cbn. split; [done|]. split.
  - destruct l; [done|cbn; lia].
  - apply gainers_losers_le.
Qed.

Lemma error_info_entry (P : Platform) (e : Env) (x : Exception) :
  scanner_entry (error_info P e x).
Proof. right. by exists (str x). Qed.

Lemma keep_last_Forall {A} (Q : A -> Prop) (cap : nat) (l : list A) :
  Forall Q l -> Forall Q (keep_last cap l).
Proof. unfold keep_last. apply Forall_drop. Qed.

(** One append of a scanner's summary on a log capped at 100. *)
Lemma add_scan_history_in_cap (info : ScanInfo) (dm : DataManager.t) :
  DataManager.max_history_items dm = 100 ->
  (length (DataManager.scan_history dm) <= 100)%nat ->
  Forall scanner_entry (DataManager.scan_history dm) ->
  scanner_entry info ->
  (length (DataManager.scan_history (DataManager.add_scan_history info dm))
     <= 100)%nat /\
  Forall scanner_entry
    (DataManager.scan_history (DataManager.add_scan_history info dm)).
Proof.
  intros Hmax Hlen Hall Hinfo.
  rewrite scan_history_add by lia. rewrite Hmax. split.
  - rewrite length_keep_last. lia.
  - apply keep_last_Forall. apply Forall_app. split; [done|by constructor].
Qed.

(** A cycle keeps the scanner and the store in step. *)
Lemma cycle_in_step (P : Platform) (fetch : Eff Env (list Quote))
    (w : StockScanner.World) :
  in_step w ->
  in_step (state_of (StockScanner._perform_scan_with P fetch w)).
Proof.
  intros (Hlast & Hnext & Hint & Hpos & Hzero & Hdata & Hmax & Hlen & Hall).
  destruct (cycle_cases P fetch w)
    as [(x & e & _ & Hself & Hdm)|[(e & _ & Hself & Hdm)|
        (l & e & Hne & _ & Hself & Hdm)]];
    unfold in_step; rewrite Hself, Hdm.
  - destruct (add_scan_history_in_cap (error_info P e x)
                (StockScanner.data_manager w) Hmax Hlen Hall
                (error_info_entry P e x)) as [Hlen' Hall'].
    by repeat split.
  - by repeat split.
  - destruct (add_scan_history_in_cap (success_info P w l)
                (DataManager.store_scan_data l (start_time P w)
                   (StockScanner.data_manager w)) Hmax Hlen Hall
                (success_info_entry P w l Hne)) as [Hlen' Hall'].
    cbn [StockScanner.last_scan_time StockScanner.next_scan_time
         StockScanner.scan_interval_minutes StockScanner.total_scans].
    split; [done|]. split; [by rewrite Hint|]. split; [done|].
    split; [lia|]. split; [lia|]. split; [intros _; by exists l|].
    split; [done|]. split; [exact Hlen'|exact Hall'].
Qed.

Lemma fresh_world_in_step : in_step fresh_world.
Proof.
  unfold in_step. cbn. repeat split; try done; try lia.
Qed.

Lemma run_cycles_in_step (P : Platform)
    (fetches : list (Eff Env (list Quote))) (w : StockScanner.World) :
  in_step w -> in_step (run_cycles P fetches w).
Proof.
  intros Hw. unfold run_cycles.
  induction fetches as [|fetch fetches IH] using rev_ind; [done|].
  rewrite foldl_snoc. by apply cycle_in_step.
Qed.


(** X11. After any number of cycles on a new scanner and store the log
    holds at most one summary per cycle and at most 100, and each of them
    is either a Success summary with a positive [total_stocks] and
    [gainers + losers <= total_stocks], or an Error summary with zero
    counts. *)
Theorem history_entries_well_formed (P : Platform)
    (fetches : list (Eff Env (list Quote))) :
  let history :=
    DataManager.get_scan_history
      (StockScanner.data_manager (run_cycles P fetches fresh_world)) in
  (length history <= length fetches)%nat /\
  (length history <= 100)%nat /\
  Forall scanner_entry history.
Proof.
  intros history. unfold history, DataManager.get_scan_history.
  destruct (run_cycles_in_step P fetches fresh_world fresh_world_in_step)
    as (_ & _ & _ & _ & _ & _ & _ & Hlen & Hall).
  split; [|split; [exact Hlen|exact Hall]].
  clear Hlen Hall history. unfold run_cycles.
  induction fetches as [|fetch fetches IH] using rev_ind; [done|].
  rewrite foldl_snoc, length_app. cbn [length].
  pose proof (run_cycles_in_step P fetches fresh_world fresh_world_in_step)
    as (_ & _ & _ & _ & _ & _ & Hmax & _).
  unfold run_cycles in Hmax.
  set (w := foldl _ fresh_world fetches) in *.
  destruct (cycle_cases P fetch w)
    as [(x & e & _ & _ & Hdm)|[(e & _ & _ & Hdm)|(l & e & _ & _ & _ & Hdm)]];
    rewrite Hdm.
  - rewrite scan_history_add, length_keep_last, length_app by lia.
    cbn [length]. lia.
  - lia.
  - rewrite scan_history_add, length_keep_last, length_app by (cbn; lia).
    cbn [length DataManager.scan_history DataManager.store_scan_data]. lia.
Qed.

(** The entry appended last is the last of the log, under any cap that is
    not negative. *)
Lemma last_add_scan_history (info : ScanInfo) (dm : DataManager.t) :
  0 <= DataManager.max_history_items dm ->
  last (DataManager.scan_history (DataManager.add_scan_history info dm))
  = Some info.
Proof.
  intros Hcap.
  destruct (decide (DataManager.max_history_items dm = 0)) as [Hzero|Hpos].
  - cbn. rewrite Hzero. case_decide; [|apply last_snoc].
    cbn. apply last_snoc.
  - rewrite scan_history_add by lia. unfold keep_last.
    rewrite drop_app_le by (rewrite length_app; cbn; lia).
    apply last_snoc.
Qed.

(** X12. After a cycle whose fetch step returns a list with records, on a
    store whose [max_history_items] is not negative, the last summary of
    the log and [get_statistics] tell the same counts: the same total, the
    same number of gainers and the same number of losers. *)
Theorem summary_agrees_with_statistics (P : Platform)
    (fetch : Eff Env (list Quote)) (w : StockScanner.World)
    (l : list Quote) (e : Env) :
  fetch (env_at_fetch P (StockScanner.env w)) = Returned l e ->
  l <> [] ->
  0 <= DataManager.max_history_items (StockScanner.data_manager w) ->
  exists w' info,
    StockScanner._perform_scan_with P fetch w = Returned tt w' /\
    last (DataManager.get_scan_history (StockScanner.data_manager w'))
      = Some info /\
    let stats := DataManager.get_statistics (StockScanner.data_manager w') in
    total_stocks info = DataManager.stat_total_stocks stats /\
    gainers info = DataManager.stat_gainers stats /\
    losers info = DataManager.stat_losers stats.
Proof.
  intros Hfetch Hne Hcap.
  eexists _, (success_info P w l).
  unfold StockScanner._perform_scan_with, try_except.
  rewrite (scan_body_data P fetch w l e Hfetch Hne).
  split; [reflexivity|]. cbn [StockScanner.data_manager].
  split; [by apply last_add_scan_history|].
  change (DataManager.get_statistics
            (DataManager.add_scan_history (success_info P w l)
               (DataManager.store_scan_data l (start_time P w)
                  (StockScanner.data_manager w))))
    with (DataManager.get_statistics
            (DataManager.store_scan_data l (start_time P w)
               (StockScanner.data_manager w))).
  rewrite (get_statistics_store l _ _ Hne). by repeat split.
Qed.

Lemma summary_agrees_with_statistics_scenario :
  scenario_fetch (env_at_fetch steady_platform (StockScanner.env fresh_world))
    = Returned [quote_AAA; quote_BBB]
        (env_at_fetch steady_platform (StockScanner.env fresh_world)) /\
  [quote_AAA; quote_BBB] <> [] /\
  0 <= DataManager.max_history_items (StockScanner.data_manager fresh_world) /\
  exists w' info,
    StockScanner._perform_scan_with steady_platform scenario_fetch fresh_world
      = Returned tt w' /\
    last (DataManager.get_scan_history (StockScanner.data_manager w'))
      = Some info /\
    gainers info
      = DataManager.stat_gainers
          (DataManager.get_statistics (StockScanner.data_manager w')).
Proof.
  split; [reflexivity|]. split; [discriminate|]. split; [discriminate|].
  destruct (summary_agrees_with_statistics steady_platform scenario_fetch
              fresh_world [quote_AAA; quote_BBB]
              (env_at_fetch steady_platform (StockScanner.env fresh_world))
              eq_refl)
    as (w' & info & Hrun & Hlast & _ & Hgain & _); [discriminate..|].
  exists w', info. split; [exact Hrun|]. split; [exact Hlast|exact Hgain].
Defined.




(** X14. [total_scans] never goes down: after any number of cycles on any
    world it is at least what it was and at most that plus the number of
    cycles, whatever the fetch steps did. *)
Theorem total_scans_never_decreases (P : Platform)
    (fetches : list (Eff Env (list Quote))) (w : StockScanner.World) :
  StockScanner.total_scans (StockScanner.self w)
    <= StockScanner.total_scans (StockScanner.self (run_cycles P fetches w))
    <= StockScanner.total_scans (StockScanner.self w)
       + Z.of_nat (length fetches).
Proof.
  unfold run_cycles.
  induction fetches as [|fetch fetches IH] using rev_ind; [cbn; lia|].
  rewrite foldl_snoc, length_app. cbn [length].
  set (w1 := foldl _ w fetches) in *.
  destruct (cycle_cases P fetch w1)
    as [(x & e & _ & Hself & _)|[(e & _ & Hself & _)|
        (l & e & _ & _ & Hself & _)]];
    rewrite Hself; cbn [StockScanner.total_scans]; lia.
Qed.

(** ** Start and stop *)

Lemma cycle_keeps_is_running (P : Platform) (fetch : Eff Env (list Quote))
    (w : StockScanner.World) :
  StockScanner.is_running
    (StockScanner.self (state_of (StockScanner._perform_scan_with P fetch w)))
  = StockScanner.is_running (StockScanner.self w).
Proof.
  destruct (cycle_cases P fetch w)
    as [(x & e & _ & Hself & _)|[(e & _ & Hself & _)|
        (l & e & _ & _ & Hself & _)]];
    by rewrite Hself.
Qed.

(** X15. [start_background_scanning] always returns and leaves the scanner
    running; called again, with whatever data source, it changes nothing:
    no second thread, no second job, no second scan. *)
Theorem start_twice_is_start_once (P : Platform)
    (fetch fetch' : Eff Env (list Quote)) (p : Process) :
  exists p1,
    start_background_scanning_with P fetch p = Returned tt p1 /\
    StockScanner.is_running (StockScanner.self (world p1)) = true /\
    start_background_scanning_with P fetch' p1 = Returned tt p1.
Proof.
  unfold start_background_scanning_with at 1.
  destruct (StockScanner.is_running (StockScanner.self (world p))) eqn:Hrun.
  - exists p. split; [done|]. split; [done|].
    unfold start_background_scanning_with. by rewrite Hrun.
  - rewrite (perform_scan_returns P fetch (set_running true (world p))).
    eexists. split; [reflexivity|].
    assert (Hon : StockScanner.is_running
              (StockScanner.self
                 (state_of (StockScanner._perform_scan_with P fetch
                              (set_running true (world p))))) = true)
      by (by rewrite cycle_keeps_is_running).
    split; [exact Hon|].
    unfold start_background_scanning_with. cbn [world]. by rewrite Hon.
Qed.

(** X16. On a scanner that is not running, [start_background_scanning]
    starts one thread, registers one job with the scanner's interval after
    the jobs there are, and has scanned once when it returns: one more scan
    is counted and the store holds a frame of 20 rows. *)
Theorem start_scans_at_once (P : Platform) (p : Process) :
  StockScanner.is_running (StockScanner.self (world p)) = false ->
  exists p1 l,
    start_background_scanning P p = Returned tt p1 /\
    StockScanner.is_running (StockScanner.self (world p1)) = true /\
    threads_started p1 = S (threads_started p) /\
    scheduled_jobs p1
      = scheduled_jobs p
          ++ [StockScanner.scan_interval_minutes (StockScanner.self (world p))] /\
    StockScanner.total_scans (StockScanner.self (world p1))
      = StockScanner.total_scans (StockScanner.self (world p)) + 1 /\
    length l = 20%nat /\
    DataManager.get_latest_scan_data (StockScanner.data_manager (world p1))
      = Some (pd.DataFrame_of l).
Proof.
  intros Hoff.
  unfold start_background_scanning, start_background_scanning_with.
  rewrite Hoff.
  set (w := set_running true (world p)).
  destruct (fetch_stock_data_returns P (env_at_fetch P (StockScanner.env w)))
    as (l & e' & Hfetch & Hsym & _).
  assert (Hlen : length l = 20%nat).
  { rewrite <- (length_fmap symbol), Hsym. reflexivity. }
  assert (Hne : l <> []) by (intros ->; discriminate Hlen).
  unfold StockScanner._perform_scan_with, try_except.
  rewrite (scan_body_data P _ w l e' Hfetch Hne).
  eexists _, l. split; [reflexivity|]. cbn [world threads_started scheduled_jobs
    StockScanner.self StockScanner.data_manager StockScanner.is_running
    StockScanner.total_scans].
  repeat split; assumption || reflexivity.
Qed.

Lemma start_scans_at_once_fresh :
  StockScanner.is_running (StockScanner.self (world fresh_process)) = false /\
  exists p1 l,
    start_background_scanning steady_platform fresh_process = Returned tt p1 /\
    threads_started p1 = 1%nat /\
    scheduled_jobs p1 = [15] /\
    StockScanner.total_scans (StockScanner.self (world p1)) = 0 + 1 /\
    length l = 20%nat /\
    DataManager.get_latest_scan_data (StockScanner.data_manager (world p1))
      = Some (pd.DataFrame_of l).
Proof.
  split; [reflexivity|].
  destruct (start_scans_at_once steady_platform fresh_process eq_refl)
    as (p1 & l & Hrun & _ & Hthreads & Hjobs & Htotal & Hlen & Hdata).
  exists p1, l. split; [exact Hrun|]. split; [exact Hthreads|].
  split; [exact Hjobs|]. split; [exact Htotal|]. split; [exact Hlen|exact Hdata].
Defined.

(** X17. [stop_scanning] switches the scanner off and removes every job;
    the store and the count of scans stay as they are.  A start after it is
    a full start: it scans at once and leaves exactly one job, with the
    scanner's interval. *)
Theorem restart_after_stop (P : Platform) (p : Process) :
  exists p0 p1,
    stop_scanning p = Returned tt p0 /\
    StockScanner.is_running (StockScanner.self (world p0)) = false /\
    scheduled_jobs p0 = [] /\
    StockScanner.data_manager (world p0) = StockScanner.data_manager (world p) /\
    StockScanner.total_scans (StockScanner.self (world p0))
      = StockScanner.total_scans (StockScanner.self (world p)) /\
    start_background_scanning P p0 = Returned tt p1 /\
    StockScanner.is_running (StockScanner.self (world p1)) = true /\
    scheduled_jobs p1
      = [StockScanner.scan_interval_minutes (StockScanner.self (world p))] /\
    StockScanner.total_scans (StockScanner.self (world p1))
      = StockScanner.total_scans (StockScanner.self (world p)) + 1.
Proof.
  set (p0 := {| world := set_running false (world p);
                threads_started := threads_started p;
                scheduled_jobs := [] |}).
  set (w := set_running true (world p0)).
  destruct (fetch_stock_data_returns P (env_at_fetch P (StockScanner.env w)))
    as (l & e' & Hfetch & Hsym & _).
  assert (Hne : l <> []) by (intros ->; discriminate Hsym).
  exists p0. eexists. split; [reflexivity|].
  do 4 (split; [reflexivity|]).
  unfold start_background_scanning, start_background_scanning_with.
  change (StockScanner.is_running (StockScanner.self (world p0))) with false.
  cbv iota. fold w.
  unfold StockScanner._perform_scan_with, try_except.
  rewrite (scan_body_data P _ w l e' Hfetch Hne).
  split; [reflexivity|]. by repeat split.
Qed.

(** * Properties of the page *)

(** X18. The frame that the page filters for itself is the frame that
    [get_filtered_data] returns for the same filters and the slider's
    range, and the page shows that it waits for data exactly when
    [get_filtered_data] returns [None]. *)
Theorem page_filter_agrees_with_store (mc sec : string) (lo hi : Z)
    (self : DataManager.t) :
  app.filtered_data (DataManager.get_latest_scan_data self) mc sec (lo, hi)
  = DataManager.get_filtered_data mc sec (inject_Z lo, inject_Z hi) self.
Proof.
  unfold app.filtered_data, DataManager.get_filtered_data.
  destruct (DataManager.get_latest_scan_data self) as [data|]; [|done].
  by destruct (pd.empty data).
Qed.

(** X19. When the store holds the frame of a list with records and the
    filters of the page take no row away (both are "All" and the slider
    covers every price), the four metrics of the page are the total, the
    gainers, the losers and the average volume of [get_statistics]. *)
Theorem page_metrics_agree_with_statistics (lo hi : Z) (l : list Quote)
    (t : datetime) (self : DataManager.t) :
  l <> [] ->
  Forall (fun r => (inject_Z lo <= price r)%Q /\ (price r <= inject_Z hi)%Q) l ->
  let dm := DataManager.store_scan_data l t self in
  let stats := DataManager.get_statistics dm in
  exists out,
    app.filtered_data (DataManager.get_latest_scan_data dm) "All" "All" (lo, hi)
      = Some out /\
    app.metric_total (app.metrics out) = DataManager.stat_total_stocks stats /\
    app.metric_gainers (app.metrics out) = DataManager.stat_gainers stats /\
    app.metric_losers (app.metrics out) = DataManager.stat_losers stats /\
    app.metric_avg_volume (app.metrics out) = DataManager.avg_volume stats.
Proof.
  intros Hne Hcover dm stats. unfold stats, dm.
  rewrite (get_statistics_store l t self Hne).
  pose proof (DataFrame_of_nonempty l Hne) as Hdf.
  assert (Hlen : (0 < length (pd.DataFrame_of l))%nat).
  { rewrite length_DataFrame_of. destruct l; [done|cbn; lia]. }
  exists (pd.DataFrame_of l). split.
  - unfold app.filtered_data.
    cbn [DataManager.get_latest_scan_data DataManager.store_scan_data
         DataManager.current_scan_data].
    destruct (pd.DataFrame_of l) as [|ir df] eqn:Heq; [done|].
    cbn [pd.empty]. rewrite !decide_False by (intros Hneq; by apply Hneq).
    rewrite <- Heq, mask_all; [done|]. by rewrite rows_DataFrame_of.
  - unfold app.metrics.
    cbn [app.metric_total app.metric_gainers app.metric_losers
         app.metric_avg_volume DataManager.stat_total_stocks
         DataManager.stat_gainers DataManager.stat_losers
         DataManager.avg_volume].
    rewrite !decide_True by exact Hlen.
    rewrite !length_mask, rows_DataFrame_of, length_DataFrame_of.
    by repeat split.
Qed.

Lemma page_metrics_agree_scenario :
  [quote_AAA; quote_BBB] <> [] /\
  Forall (fun r => (inject_Z 0 <= price r)%Q /\ (price r <= inject_Z 10000)%Q)
    [quote_AAA; quote_BBB] /\
  exists out,
    app.filtered_data (DataManager.get_latest_scan_data scenario_store)
      "All" "All" (0, 10000) = Some out /\
    app.metric_total (app.metrics out) = 2%nat /\
    app.metric_gainers (app.metrics out) = 1%nat /\
    app.metric_losers (app.metrics out) = 1%nat.
Proof.
  assert (Hcover : Forall
            (fun r => (inject_Z 0 <= price r)%Q /\ (price r <= inject_Z 10000)%Q)
            [quote_AAA; quote_BBB]).
  { repeat constructor; discriminate. }
  split; [discriminate|]. split; [exact Hcover|].
  destruct (page_metrics_agree_with_statistics 0 10000 [quote_AAA; quote_BBB]
              63000000000000000 DataManager.init)
    as (out & Hout & Htotal & Hgain & Hlose & _); [discriminate|exact Hcover|].
  exists out. split; [exact Hout|].
  rewrite Htotal, Hgain, Hlose. vm_compute. repeat split.
Defined.

(** X20. After [store_scan_data] at the time [t] the page, drawn at a time
    [now] not before [t], shows between 0 and 15 minutes to the next scan
    as long as [now] is before [t] plus 15 minutes, fewer than 15 once
    [now] is after [t], and "Scanning now..." from [t] plus 15 minutes on. *)
Theorem next_scan_note_after_store (l : list Quote) (t now : datetime)
    (self : DataManager.t) :
  t <= now ->
  let note :=
    app.next_scan_note
      (DataManager.get_next_scan_time (DataManager.store_scan_data l t self))
      now in
  (now < t + 900000000 ->
   exists minutes_left,
     note = Some (app.NextScanIn minutes_left) /\
     0 <= minutes_left <= 15 /\
     (t < now -> minutes_left < 15)) /\
  (t + 900000000 <= now -> note = Some app.ScanningNow).
Proof.
  intros Hnow note. unfold note, app.next_scan_note.
  cbn [DataManager.get_next_scan_time DataManager.store_scan_data
       DataManager.next_scan_time].
  change (timedelta_minutes 15) with 900000000.
  split.
  - intros Hbefore. rewrite decide_True by lia.
    eexists. split; [reflexivity|].
    rewrite Z.quot_div_nonneg by lia. split.
    + split; [apply Z.div_pos; lia|].
      apply Z.div_le_upper_bound; lia.
    + intros Hafter. apply Z.div_lt_upper_bound; lia.
  - intros Hdue. by rewrite decide_False by lia.
Qed.

Lemma next_scan_note_after_ten_minutes :
  63000000000000000 <= 63000000000000000 + 600000000 /\
  app.next_scan_note
    (DataManager.get_next_scan_time scenario_store)
    (63000000000000000 + 600000000)
  = Some (app.NextScanIn 5).
Proof.
  split; [discriminate|].
  destruct (next_scan_note_after_store [quote_AAA; quote_BBB]
              63000000000000000 (63000000000000000 + 600000000)
              DataManager.init) as [Hbefore _]; [discriminate|].
  destruct Hbefore as (m & Hnote & _); [reflexivity|].
  pose proof Hnote as Hm. vm_compute in Hm. injection Hm as <-.
  exact Hnote.
Defined.

(** * Further properties of the built-in data source *)

(** The loop of [_fetch_stock_data] again: three draws per stock, the
    descriptions of the stocks copied in order, the volumes in the range
    of [randint]. *)
Lemma fetch_loop_details (P : Platform) (current_time : datetime)
    (stocks : list StockScanner.Stock) (stock_data : list Quote) (e : Env) :
  exists new e',
    StockScanner.fetch_loop P current_time stocks stock_data e
      = Returned (stock_data ++ new) e' /\
    random_draws e' = (random_draws e + 3 * length stocks)%nat /\
    (fun r => (symbol r, name r, sector r, market_cap r)) <$> new
      = (fun s => (StockScanner.stock_symbol s, StockScanner.stock_name s,
                   StockScanner.stock_sector s,
                   StockScanner.stock_market_cap s)) <$> stocks /\
    (fair P -> Forall (fun r => 100000 <= volume r <= 10000000) new).
Proof.
  revert stock_data e.
  induction stocks as [|stock stocks IH]; intros stock_data e.
  - exists [], e. rewrite app_nil_r. cbn. repeat split; [lia|done].
  - cbn [StockScanner.fetch_loop]. unfold mbind, Eff_bind, uniform, randint.
    match goal with
    | |- context [StockScanner.fetch_loop P current_time stocks
                    (stock_data ++ [?r]) ?e1] =>
        destruct (IH (stock_data ++ [r]) e1)
          as (new & e' & Hrun & Hdraws & Hmeta & Hvol);
        exists (r :: new), e'
    end.
    rewrite Hrun, <- app_assoc.
    split; [done|]. split; [rewrite Hdraws; cbn; lia|].
    split; [by rewrite !fmap_cons, Hmeta|].
    intros Hfair. constructor; [|by apply Hvol].
    destruct Hfair as [_ Hbelow]. cbn.
    pose proof (Hbelow (S (S (random_draws e))) (10000000 + 1 - 100000)).
    lia.
Qed.

(** X21. One call of [_fetch_stock_data] reads the clock once, draws 60
    numbers from the generator and prints nothing; its records carry the
    symbol, name, sector and market cap of the sample stocks, one record
    per stock and in their order. *)
Theorem fetch_draws_and_descriptions (P : Platform) (e : Env) :
  exists l e',
    StockScanner._fetch_stock_data P e = Returned l e' /\
    clock_reads e' = S (clock_reads e) /\
    random_draws e' = (random_draws e + 60)%nat /\
    stdout e' = stdout e /\
    (fun r => (symbol r, name r, sector r, market_cap r)) <$> l
      = (fun s => (StockScanner.stock_symbol s, StockScanner.stock_name s,
                   StockScanner.stock_sector s,
                   StockScanner.stock_market_cap s))
          <$> StockScanner.sample_stocks.
Proof.
  unfold StockScanner._fetch_stock_data, mbind, Eff_bind, now.
  match goal with
  | |- context [StockScanner.fetch_loop P ?t ?s [] ?e1] =>
      destruct (fetch_loop_details P t s [] e1)
        as (l & e' & Hrun & Hdraws & Hmeta & _);
      destruct (fetch_loop_returns P t s [] e1)
        as (l2 & e2 & Hrun2 & _ & _ & Hclock & Hout & _)
  end.
  rewrite Hrun in Hrun2. injection Hrun2 as _ <-.
  exists l, e'. rewrite Hrun. cbn [app].
  split; [done|]. split; [exact Hclock|]. split; [exact Hdraws|].
  split; [exact Hout|exact Hmeta].
Qed.

(** X22. With a generator that keeps its contract every record of
    [_fetch_stock_data] has a volume between 100000 and 10000000, both
    ends included. *)
Theorem fetched_volume_in_range (P : Platform) (e : Env) :
  fair P ->
  exists l e',
    StockScanner._fetch_stock_data P e = Returned l e' /\
    Forall (fun r => 100000 <= volume r <= 10000000) l.
Proof.
  intros Hfair.
  unfold StockScanner._fetch_stock_data, mbind, Eff_bind, now.
  match goal with
  | |- context [StockScanner.fetch_loop P ?t ?s [] ?e1] =>
      destruct (fetch_loop_details P t s [] e1)
        as (l & e' & Hrun & _ & _ & Hvol)
  end.
  exists l, e'. rewrite Hrun. split; [done|by apply Hvol].
Qed.

Lemma steady_platform_fair : fair steady_platform.
Proof.
  split.
  - intros n. cbn. unfold Qle, Qlt. cbn. lia.
  - intros n k Hk. cbn. lia.
Defined.

Lemma fetched_volume_on_steady_platform :
  fair steady_platform /\
  exists l e',
    StockScanner._fetch_stock_data steady_platform fresh_env = Returned l e' /\
    Forall (fun r => 100000 <= volume r <= 10000000) l.
Proof.
  split; [exact steady_platform_fair|].
  exact (fetched_volume_in_range steady_platform fresh_env steady_platform_fair).
Defined.

(** X23. With a generator that keeps its contract, after a cycle of
    [_perform_scan] on its own data source [get_filtered_data] with its
    default arguments ("All", "All", prices from 0 to 10000) returns the
    whole stored frame, all 20 rows. *)
Theorem default_filters_show_whole_scan (P : Platform)
    (w : StockScanner.World) :
  fair P ->
  exists w' data,
    StockScanner._perform_scan P w = Returned tt w' /\
    DataManager.get_latest_scan_data (StockScanner.data_manager w')
      = Some data /\
    length data = 20%nat /\
    DataManager.get_filtered_data "All" "All" DataManager.default_price_range
      (StockScanner.data_manager w') = Some data.
Proof.
  intros Hfair.
  destruct (fetch_stock_data_returns P (env_at_fetch P (StockScanner.env w)))
    as (l & e' & Hfetch & Hsym & _ & _ & Hrange).
  specialize (Hrange Hfair).
  assert (Hlen : length l = 20%nat).
  { rewrite <- (length_fmap symbol), Hsym. reflexivity. }
  assert (Hne : l <> []) by (intros ->; discriminate Hlen).
  unfold StockScanner._perform_scan, StockScanner._perform_scan_with, try_except.
  rewrite (scan_body_data P _ w l e' Hfetch Hne).
  eexists _, (pd.DataFrame_of l). split; [reflexivity|].
  cbn [StockScanner.data_manager].
  split; [reflexivity|]. split; [by rewrite length_DataFrame_of|].
  erewrite get_filtered_data_filter;
    [|reflexivity|by apply DataFrame_of_nonempty].
  f_equal. apply mask_all. rewrite rows_DataFrame_of.
  eapply Forall_impl; [exact Hrange|].
  intros r (Hlo & Hhi & _). unfold passes. cbn.
  split; [by left|]. split; [by left|]. split.
  - eapply Qle_trans; [|exact Hlo]. discriminate.
  - eapply Qle_trans; [exact Hhi|]. discriminate.
Qed.

Lemma default_filters_on_steady_platform :
  fair steady_platform /\
  exists w' data,
    StockScanner._perform_scan steady_platform fresh_world = Returned tt w' /\
    length data = 20%nat /\
    DataManager.get_filtered_data "All" "All" DataManager.default_price_range
      (StockScanner.data_manager w') = Some data.
Proof.
  split; [exact steady_platform_fair|].
  destruct (default_filters_show_whole_scan steady_platform fresh_world
              steady_platform_fair)
    as (w' & data & Hrun & _ & Hlen & Hall).
  exists w', data. split; [exact Hrun|]. split; [exact Hlen|exact Hall].
Defined.
